(** * DDWrap: a shallow embedding of [ddwrap.py]

    The program is a PyQt front end that launches [dd] on a block device.
    Its logic lives in the slots of [DDGui] and in [DDWorker.run].  The
    embedding keeps the slots as computations in a small monad that threads
    the widget state and a chronological log of the calls made to the
    operating system, to [subprocess] and to [QMessageBox], and that can
    raise the [OSError]s those calls raise.  What the outside world answers
    (the file system, [shutil.which], the tools, the operator in front of a
    dialog, the [dd] process) is read from a [World] record. *)

From Stdlib Require Import String Ascii List ZArith Bool Lia.
Import ListNotations.
Open Scope string_scope.
Open Scope Z_scope.

(** ** Python strings

    A [str] is modelled as a [string] whose characters are the code points
    below 256. *)
Module Py.

(** [str.isspace] on one code point below 256. *)
Definition isspace (c : ascii) : bool :=
  let n := Z.of_nat (nat_of_ascii c) in
  ((9 <=? n) && (n <=? 13)) || ((28 <=? n) && (n <=? 32))
  || (n =? 133) || (n =? 160).

(** [str.isdigit] on one code point below 256: the decimal digits and the
    superscripts two, three and one. *)
Definition isdigit (c : ascii) : bool :=
  let n := Z.of_nat (nat_of_ascii c) in
  ((48 <=? n) && (n <=? 57)) || (n =? 178) || (n =? 179) || (n =? 185).

Fixpoint lstrip (s : string) : string :=
  match s with
  | String c s' => if isspace c then lstrip s' else s
  | EmptyString => EmptyString
  end.

Fixpoint rstrip (s : string) : string :=
  match s with
  | String c s' =>
      match rstrip s' with
      | EmptyString => if isspace c then EmptyString else String c EmptyString
      | r => String c r
      end
  | EmptyString => EmptyString
  end.

(** [s.strip()] *)
Definition strip (s : string) : string := rstrip (lstrip s).

(** [sub in s] *)
Fixpoint contains (sub s : string) : bool :=
  if String.prefix sub s then true
  else match s with
       | String _ s' => contains sub s'
       | EmptyString => false
       end.

(** [s.startswith(p)] *)
Definition startswith (s p : string) : bool := String.prefix p s.

(** [s[-1]], defined on non-empty strings. *)
Fixpoint last_char (s : string) : option ascii :=
  match s with
  | EmptyString => None
  | String c EmptyString => Some c
  | String _ s' => last_char s'
  end.

(** [sep.join(l)] *)
Definition join (sep : string) (l : list string) : string :=
  String.concat sep l.

(** Truthiness of a [str]. *)
Definition truthy (s : string) : bool :=
  match s with EmptyString => false | _ => true end.

End Py.

(** ** Data *)

(** The exceptions the modelled calls raise are all [OSError]s; its
    subclasses that the source tells apart are constructors. *)
Inductive OSError : Type :=
| PermissionError
| FileNotFoundError
| OtherOSError (errno : Z).

(** [QMessageBox.StandardButton], the members the source names. *)
Inductive StandardButton : Type := NoButton | Ok | Cancel.

Definition StandardButton_eqb (a b : StandardButton) : bool :=
  match a, b with
  | NoButton, NoButton | Ok, Ok | Cancel, Cancel => true
  | _, _ => false
  end.

(** What the operator does with a modal message box. *)
Inductive UserAction : Type :=
| Choose (b : StandardButton)   (* clicks one of the offered buttons *)
| PressDefault                  (* activates the button that has focus *)
| Dismiss.                      (* Escape, or closes the window *)

(** The items of [bs_combo] (line 92); the combo box is not editable. *)
Inductive BlockSize : Type := bs64k | bs256k | bs512k | bs1M | bs2M.

Definition bs_text (b : BlockSize) : string :=
  match b with
  | bs64k => "64k" | bs256k => "256k" | bs512k => "512k"
  | bs1M => "1M" | bs2M => "2M"
  end.

(** A run of the copy tool as the worker sees it: the lines of its
    diagnostic stream, then its exit status. *)
Record Proc : Type := mkProc {
  stderr : list string;
  returncode : Z
}.

(** The answers of the environment during one slot. *)
Record World : Type := mkWorld {
  geteuid : Z;
  which : string -> option string;                  (* shutil.which *)
  path_exists : string -> bool;                     (* os.path.exists *)
  getsize : string -> OSError + Z;                  (* os.path.getsize *)
  listdir_dev : list string;                        (* os.listdir("/dev") *)
  os_open : string -> Z -> OSError + Z;             (* os.open: a descriptor *)
  os_close : Z -> option OSError;                   (* os.close *)
  subprocess_run : list string -> OSError + string; (* captured stdout *)
  user_action : UserAction;                         (* at the warning box *)
  popen : list string -> OSError + Proc             (* subprocess.Popen *)
}.

(** The calls the program makes, in the order it makes them. *)
Inductive Effect : Type :=
| OsOpen (path : string) (flags : Z)
| OsClose (fd : Z)
| SubprocessRun (argv : list string)
| MsgCritical (title text : string)
| MsgInformation (title text : string)
| MsgWarning (title text : string)
             (buttons : list StandardButton) (defaultButton : StandardButton)
| ThreadStart (cmd : list string)
| Popen (argv : list string) (shell : bool)
| ProcWait (status : Z)
| ProcSignal (signum : Z).
(* [ProcSignal] stands for Popen.send_signal / terminate / kill; it is part
   of the process interface, and no definition below produces it. *)

(** The attributes and widgets of [DDGui] that the slots read or write.
    The two size labels hold rendered text only and are left out. *)
Record Gui : Type := mkGui {
  window_title : string;
  image_size_bytes : Z;
  last_bytes : Z;
  last_update_time : Z;
  input_edit : string;
  bs_combo : BlockSize;
  progress_display : list string;    (* the paragraphs appended so far *)
  progress_bar : option Z;           (* the value set by the program, if any *)
  eta_label : string;
  dev_items : list string;           (* the entries of dev_combo *)
  dev_combo : string;                (* its current text *)
  unmount_btn : bool;                (* enabled? *)
  sync_checkbox : bool;
  progress_checkbox : bool;
  start_btn : bool;                  (* enabled? *)
  worker : option (list string)      (* self.worker, by its command *)
}.

Definition set_window_title (t : string) (g : Gui) : Gui :=
  mkGui t (image_size_bytes g) (last_bytes g) (last_update_time g)
        (input_edit g) (bs_combo g) (progress_display g) (progress_bar g)
        (eta_label g) (dev_items g) (dev_combo g) (unmount_btn g)
        (sync_checkbox g) (progress_checkbox g) (start_btn g) (worker g).

Definition set_image_size_bytes (n : Z) (g : Gui) : Gui :=
  mkGui (window_title g) n (last_bytes g) (last_update_time g)
        (input_edit g) (bs_combo g) (progress_display g) (progress_bar g)
        (eta_label g) (dev_items g) (dev_combo g) (unmount_btn g)
        (sync_checkbox g) (progress_checkbox g) (start_btn g) (worker g).

Definition set_input_edit (t : string) (g : Gui) : Gui :=
  mkGui (window_title g) (image_size_bytes g) (last_bytes g)
        (last_update_time g) t (bs_combo g) (progress_display g)
        (progress_bar g) (eta_label g) (dev_items g) (dev_combo g)
        (unmount_btn g) (sync_checkbox g) (progress_checkbox g) (start_btn g)
        (worker g).

Definition set_bs_combo (b : BlockSize) (g : Gui) : Gui :=
  mkGui (window_title g) (image_size_bytes g) (last_bytes g)
        (last_update_time g) (input_edit g) b (progress_display g)
        (progress_bar g) (eta_label g) (dev_items g) (dev_combo g)
        (unmount_btn g) (sync_checkbox g) (progress_checkbox g) (start_btn g)
        (worker g).

Definition display_append (t : string) (g : Gui) : Gui :=
  mkGui (window_title g) (image_size_bytes g) (last_bytes g)
        (last_update_time g) (input_edit g) (bs_combo g)
        (progress_display g ++ [t]) (progress_bar g) (eta_label g)
        (dev_items g) (dev_combo g) (unmount_btn g) (sync_checkbox g)
        (progress_checkbox g) (start_btn g) (worker g).

Definition set_devices (items : list string) (cur : string) (g : Gui) : Gui :=
  mkGui (window_title g) (image_size_bytes g) (last_bytes g)
        (last_update_time g) (input_edit g) (bs_combo g) (progress_display g)
        (progress_bar g) (eta_label g) items cur (unmount_btn g)
        (sync_checkbox g) (progress_checkbox g) (start_btn g) (worker g).

Definition set_buttons (start unmount : bool) (g : Gui) : Gui :=
  mkGui (window_title g) (image_size_bytes g) (last_bytes g)
        (last_update_time g) (input_edit g) (bs_combo g) (progress_display g)
        (progress_bar g) (eta_label g) (dev_items g) (dev_combo g) unmount
        (sync_checkbox g) (progress_checkbox g) start (worker g).

Definition set_checkboxes (sync progress : bool) (g : Gui) : Gui :=
  mkGui (window_title g) (image_size_bytes g) (last_bytes g)
        (last_update_time g) (input_edit g) (bs_combo g) (progress_display g)
        (progress_bar g) (eta_label g) (dev_items g) (dev_combo g)
        (unmount_btn g) sync progress (start_btn g) (worker g).

Definition set_worker (cmd : list string) (g : Gui) : Gui :=
  mkGui (window_title g) (image_size_bytes g) (last_bytes g)
        (last_update_time g) (input_edit g) (bs_combo g) (progress_display g)
        (progress_bar g) (eta_label g) (dev_items g) (dev_combo g)
        (unmount_btn g) (sync_checkbox g) (progress_checkbox g) (start_btn g)
        (Some cmd).

(** ** The monad of a slot: widget state, call log, exceptions *)

Record St : Type := mkSt { gui : Gui; log : list Effect }.

Inductive Res (A : Type) : Type :=
| Ret (a : A) (s : St)
| Raise (e : OSError) (s : St).
Arguments Ret {A} a s.
Arguments Raise {A} e s.

Definition M (A : Type) : Type := St -> Res A.

Definition ret {A} (a : A) : M A := fun s => Ret a s.

Definition bind {A B} (m : M A) (k : A -> M B) : M B :=
  fun s => match m s with
           | Ret a s' => k a s'
           | Raise e s' => Raise e s'
           end.

Notation "x <- m ;; k" := (bind m (fun x => k))
  (at level 61, m at next level, right associativity).
Notation "m ;; k" := (bind m (fun _ => k))
  (at level 61, right associativity).

Definition tell (e : Effect) : M unit :=
  fun s => Ret tt (mkSt (gui s) (log s ++ [e])).

Definition read {A} (f : Gui -> A) : M A := fun s => Ret (f (gui s)) s.

Definition modify (f : Gui -> Gui) : M unit :=
  fun s => Ret tt (mkSt (f (gui s)) (log s)).

Definition raise {A} (e : OSError) : M A := fun s => Raise e s.

(** [try: m  except ...: h e] *)
Definition try_except {A} (m : M A) (h : OSError -> M A) : M A :=
  fun s => match m s with
           | Ret a s' => Ret a s'
           | Raise e s' => h e s'
           end.

(** A call that either returns or raises, and one that is logged too. *)
Definition query {A} (answer : OSError + A) : M A :=
  match answer with inl err => raise err | inr a => ret a end.

Definition call {A} (e : Effect) (answer : OSError + A) : M A :=
  tell e ;; query answer.

(** Runs a slot on a widget state: the new state, the calls it made, and
    the exception that escaped it, if one did. *)
Definition exec (m : M unit) (g : Gui) : Gui * list Effect * option OSError :=
  match m (mkSt g []) with
  | Ret _ s => (gui s, log s, None)
  | Raise e s => (gui s, log s, Some e)
  end.

Definition nl : string := String (ascii_of_nat 10) EmptyString.

(** [os.O_WRONLY] and [os.O_EXCL] (Linux values). *)
Definition O_WRONLY : Z := 1.
Definition O_EXCL : Z := 128.

(** ** [QMessageBox] (Qt's behaviour, as documented for its static boxes)

    A box returns the button that was chosen; activating the default gives
    the default button; dismissing the box gives its escape button, which
    Qt detects as the Cancel button when one is offered, else the only
    button when there is just one. *)
Definition escape_button (buttons : list StandardButton) : StandardButton :=
  if existsb (StandardButton_eqb Cancel) buttons then Cancel
  else match buttons with
       | [b] => b
       | _ => NoButton
       end.

Definition dialog_result (buttons : list StandardButton)
    (defaultButton : StandardButton) (a : UserAction) : StandardButton :=
  match a with
  | Choose b => b
  | PressDefault => defaultButton
  | Dismiss => escape_button buttons
  end.

Definition QMessageBox_critical (title text : string) : M unit :=
  tell (MsgCritical title text).

Definition QMessageBox_information (title text : string) : M unit :=
  tell (MsgInformation title text).

(** ** The slots that do not consult the environment *)

(** [DDGui.update_progress] (lines 276-277) *)
Definition update_progress (text : string) : M unit :=
  modify (display_append text).

(** [DDGui.dd_finished] (lines 279-280) *)
Definition dd_finished : M unit :=
  QMessageBox_information "Done" "DD completed successfully.".

(** The attributes and widget contents set by [DDGui.__init__] before it
    calls [refresh_devices] (lines 62-136). *)
Definition init_gui : Gui :=
  mkGui "DD Wrapper GUI" 0 0 0 "" bs512k [] None "Progress: 0% - ETA: N/A"
        [] "" true true true true None.

Section Slots.

Variable w : World.

(** *** Privilege helpers (lines 25-35) *)
Definition is_root : bool := geteuid w =? 0.

Definition is_not_None {A} (o : option A) : bool :=
  match o with Some _ => true | None => false end.

Definition has_sudo : bool := is_not_None (which w "sudo").
Definition has_doas : bool := is_not_None (which w "doas").
Definition has_pkexec : bool := is_not_None (which w "pkexec").

Definition QMessageBox_warning (title text : string)
    (buttons : list StandardButton) (defaultButton : StandardButton)
  : M StandardButton :=
  tell (MsgWarning title text buttons defaultButton) ;;
  ret (dialog_result buttons defaultButton (user_action w)).

(** [subprocess.run(argv, capture_output=True, text=True).stdout] *)
Definition run_stdout (argv : list string) : M string :=
  call (SubprocessRun argv) (subprocess_run w argv).

(** *** Mount detection and the other queries (lines 283-307) *)
Definition get_mounted_partitions (device : string) : M bool :=
  out <- run_stdout ["lsblk"; "-n"; "-o"; "MOUNTPOINT"; device] ;;
  ret (Py.truthy (Py.strip out)).

Definition get_lsblk_info (device : string) : M string :=
  out <- run_stdout ["lsblk"; device] ;;
  ret (Py.strip out).

Definition get_smart_info (device : string) : M (option string) :=
  match which w "smartctl" with
  | None => ret None
  | Some _ =>
      out <- run_stdout ["smartctl"; "-i"; device] ;;
      ret (Some (Py.strip out))
  end.

(** *** [update_dev_capacity] (lines 173-192)

    The size query of lines 178-188 only renders [dev_size_label], and
    its [except Exception] absorbs whatever it raises: the call is
    logged and its outcome dropped. *)
Definition update_dev_capacity : M unit :=
  device <- read (fun g => Py.strip (dev_combo g)) ;;
  if negb (Py.truthy device) then ret tt
  else
    (try_except
       (run_stdout ["lsblk"; "-b"; "-dn"; "-o"; "SIZE"; device] ;; ret tt)
       (fun _ => ret tt)) ;;
    mounts <- get_mounted_partitions device ;;
    modify (set_buttons (negb mounts) mounts).

(** *** [refresh_devices] (lines 163-171)

    [addItems] on the empty combo box makes the first entry current, so
    the slot connected at line 114 runs before the explicit call. *)
Definition is_candidate (d : string) : bool :=
  Py.startswith d "sd"
  && negb (match Py.last_char d with
           | Some c => Py.isdigit c
           | None => false
           end).

Definition refresh_devices : M unit :=
  modify (set_devices [] "") ;;
  let devices :=
    map (fun d => "/dev/" ++ d) (filter is_candidate (listdir_dev w)) in
  match devices with
  | [] => ret tt
  | d :: _ =>
      modify (set_devices devices d) ;;
      update_dev_capacity ;;
      update_dev_capacity
  end.

(** [DDGui.__init__], run on [init_gui]. *)
Definition DDGui_init : M unit :=
  (if is_root
   then modify (set_window_title "DD Wrapper GUI (running as root)")
   else ret tt) ;;
  refresh_devices.

(** *** [browse_file] and [show_file_size] (lines 140-152) *)
Definition show_file_size (path : string) : M unit :=
  n <- query (getsize w path) ;;
  modify (set_image_size_bytes n).

(** [file_path] is what the file dialog returned, empty when the
    operator cancelled it. *)
Definition browse_file (file_path : string) : M unit :=
  if Py.truthy file_path
  then modify (set_input_edit file_path) ;; show_file_size file_path
  else ret tt.

(** *** [unmount_device] (lines 194-198) *)
Definition unmount_device : M unit :=
  device <- read (fun g => Py.strip (dev_combo g)) ;;
  run_stdout ["sudo"; "umount"; device ++ "*"] ;;
  QMessageBox_information "Unmount" (device ++ " unmounted.") ;;
  update_dev_capacity.

(** *** [confirm_destructive_write] (lines 201-222) *)
Definition smart_text (smart_info : option string) : string :=
  match smart_info with
  | Some info =>
      if Py.truthy info then nl ++ "SMART Info:" ++ nl ++ info else ""
  | None => ""
  end.

Definition warning_message (device lsblk_info : string)
    (smart_info : option string) (image : string) : string :=
  "WARNING: DESTRUCTIVE OPERATION" ++ nl ++ nl
  ++ "Target device: " ++ device ++ nl ++ nl
  ++ "Partition layout:" ++ nl ++ lsblk_info
  ++ smart_text smart_info ++ nl ++ nl
  ++ "Image: " ++ image ++ nl ++ nl
  ++ "Click OK to continue.".

Definition confirm_destructive_write (device image : string) : M bool :=
  lsblk_info <- get_lsblk_info device ;;
  smart_info <- get_smart_info device ;;
  reply <- QMessageBox_warning "Confirm Disk Write"
             (warning_message device lsblk_info smart_info image)
             [Ok; Cancel] Cancel ;;
  ret (StandardButton_eqb reply Ok).

(** *** [start_dd] (lines 225-273) *)

(** Lines 233-245: [true] when the device was opened and closed, [false]
    when an [except] clause showed its box and returned. *)
Definition exclusive_open_check (ofile : string) : M bool :=
  try_except
    (fd <- call (OsOpen ofile (Z.lor O_WRONLY O_EXCL))
                (os_open w ofile (Z.lor O_WRONLY O_EXCL)) ;;
     call (OsClose fd)
          (match os_close w fd with Some e => inl e | None => inr tt end) ;;
     ret true)
    (fun e =>
       match e with
       | PermissionError =>
           QMessageBox_critical "Permission Error"
                                "Requires root privileges." ;;
           ret false
       | _ =>
           QMessageBox_critical "Device Busy"
                                "Target device is mounted or in use." ;;
           ret false
       end).

(** Lines 250-255. *)
Definition dd_command (infile ofile : string) (bs : BlockSize)
    (sync progress : bool) : list string :=
  ["dd"; "if=" ++ infile; "of=" ++ ofile; "bs=" ++ bs_text bs]
  ++ (if sync then ["oflag=sync"] else [])
  ++ (if progress then ["status=progress"] else []).

(** Lines 257-266: the command with its prefix, or [None] when the
    last [else] is taken. *)
Definition with_privileges (cmd : list string) : option (list string) :=
  if negb is_root then
    if has_sudo then Some ("sudo" :: cmd)
    else if has_doas then Some ("doas" :: cmd)
    else if has_pkexec then Some ("pkexec" :: cmd)
    else None
  else Some cmd.

Definition start_dd : M unit :=
  infile <- read (fun g => Py.strip (input_edit g)) ;;
  ofile <- read (fun g => Py.strip (dev_combo g)) ;;
  if negb (path_exists w infile)
  then QMessageBox_critical "Error" "Invalid input file."
  else
    free <- exclusive_open_check ofile ;;
    if negb free then ret tt
    else
      confirmed <- confirm_destructive_write ofile infile ;;
      if negb confirmed then ret tt
      else
        bs <- read bs_combo ;;
        sync <- read sync_checkbox ;;
        progress <- read progress_checkbox ;;
        match with_privileges (dd_command infile ofile bs sync progress) with
        | None =>
            QMessageBox_critical "Privileges"
                                 "Run as root or install sudo/doas."
        | Some cmd =>
            modify (display_append ("Running: " ++ Py.join " " cmd ++ nl)) ;;
            modify (set_worker cmd) ;;
            tell (ThreadStart cmd)
        end.

End Slots.

(** ** The worker thread (lines 38-58) *)

Inductive Signal : Type :=
| progress (text : string)
| finished.

(** What the thread does, one step at a time.  [Uncaught e] is the
    exception [e] leaving [run]: nothing in [run] catches it, and PyQt
    aborts the whole process when an exception escapes a thread's
    [run]. *)
Inductive Action : Type :=
| DoPopen (cmd : list string) (shell : bool)
| Emit (sig : Signal)
| DoWait (status : Z)
| Uncaught (e : OSError).

(** Lines 53-55. *)
Fixpoint read_stderr (lines : list string) : list Action :=
  match lines with
  | [] => []
  | line :: rest =>
      (if Py.contains "bytes" line
       then [Emit (progress (Py.strip line))]
       else [])
      ++ read_stderr rest
  end.

(** [DDWorker.run].  [Popen] is given the argument list and no [shell]
    keyword, so [shell] has its default, [False].  When [Popen] raises,
    the exception leaves [run] at once: no line is read, nothing is
    emitted. *)
Definition DDWorker_run (w : World) (cmd : list string) : list Action :=
  DoPopen cmd false ::
  match popen w cmd with
  | inl e => [Uncaught e]
  | inr process =>
      read_stderr (stderr process)
      ++ [DoWait (returncode process); Emit finished]
  end.

(** ** The running application

    The widget state, everything the program has done so far, and for each
    worker thread started the actions it still has to perform.  A signal
    emitted by a worker runs the connected slot; Qt delivers the signals of
    one thread in the order they were emitted.  An exception that escapes
    a slot or the [run] of a worker ends the process: [crashed] records
    it and no input has any effect afterwards. *)
Record Sys : Type := mkSys {
  widgets : Gui;
  history : list Effect;
  threads : list (list Action);
  crashed : option OSError        (* an exception escaped a slot or a run *)
}.

(** What can happen next: the operator acts on a widget (the slot sees the
    world [w]), or the scheduler lets worker [k] take a step. *)
Inductive Input : Type :=
| FileChosen (w : World) (file_path : string)
| InputTyped (text : string)
| BlockSizePicked (b : BlockSize)
| SyncSet (b : bool)
| ProgressSet (b : bool)
| DevicePicked (w : World) (i : nat)
| UnmountClicked (w : World)
| StartClicked (w : World)
| ThreadStep (k : nat).

(** The commands of the threads started by a slot. *)
Definition spawned (es : list Effect) : list (list string) :=
  flat_map (fun e => match e with ThreadStart cmd => [cmd] | _ => [] end) es.

Definition run_slot (w : World) (m : M unit) (s : Sys) : Sys :=
  let '(g, es, err) := exec m (widgets s) in
  mkSys g (history s ++ es)
        (threads s ++ map (DDWorker_run w) (spawned es)) err.

Definition set_widgets (f : Gui -> Gui) (s : Sys) : Sys :=
  mkSys (f (widgets s)) (history s) (threads s) (crashed s).

Definition record (e : Effect) (s : Sys) : Sys :=
  mkSys (widgets s) (history s ++ [e]) (threads s) (crashed s).

Fixpoint replace_nth {A} (k : nat) (x : A) (l : list A) : list A :=
  match l, k with
  | [], _ => []
  | _ :: t, O => x :: t
  | h :: t, S k' => h :: replace_nth k' x t
  end.

(** A world for the slots that consult none. *)
Definition no_world : World :=
  mkWorld 0 (fun _ => None) (fun _ => false) (fun _ => inl FileNotFoundError)
          [] (fun _ _ => inl FileNotFoundError) (fun _ => None)
          (fun _ => inl FileNotFoundError) Dismiss
          (fun _ => inl FileNotFoundError).

Definition perform (a : Action) (s : Sys) : Sys :=
  match a with
  | DoPopen cmd shell => record (Popen cmd shell) s
  | Emit (progress text) => run_slot no_world (update_progress text) s
  | Emit finished => run_slot no_world dd_finished s
  | DoWait status => record (ProcWait status) s
  | Uncaught e => mkSys (widgets s) (history s) (threads s) (Some e)
  end.

(** A disabled button emits no [clicked]; choosing the entry that is
    already current emits no [currentTextChanged]. *)
Definition step (i : Input) (s : Sys) : Sys :=
  match crashed s with
  | Some _ => s
  | None =>
      match i with
      | FileChosen w file_path => run_slot w (browse_file w file_path) s
      | InputTyped text => set_widgets (set_input_edit text) s
      | BlockSizePicked b => set_widgets (set_bs_combo b) s
      | SyncSet b =>
          set_widgets (fun g => set_checkboxes b (progress_checkbox g) g) s
      | ProgressSet b =>
          set_widgets (fun g => set_checkboxes (sync_checkbox g) b g) s
      | DevicePicked w i =>
          match nth_error (dev_items (widgets s)) i with
          | Some d =>
              if String.eqb d (dev_combo (widgets s)) then s
              else run_slot w (update_dev_capacity w)
                     (set_widgets
                        (fun g => set_devices (dev_items g) d g) s)
          | None => s
          end
      | UnmountClicked w =>
          if unmount_btn (widgets s) then run_slot w (unmount_device w) s
          else s
      | StartClicked w =>
          if start_btn (widgets s) then run_slot w (start_dd w) s else s
      | ThreadStep k =>
          match nth_error (threads s) k with
          | Some (a :: rest) =>
              perform a (mkSys (widgets s) (history s)
                               (replace_nth k rest (threads s)) (crashed s))
          | _ => s
          end
      end
  end.

Definition run_inputs (inputs : list Input) (s : Sys) : Sys :=
  fold_left (fun s i => step i s) inputs s.

(** The application once [DDGui.__init__] has returned. *)
Definition boot (w : World) : Sys :=
  run_slot w (DDGui_init w) (mkSys init_gui [] [] None).

(** A thread's subprocess is running from its [Popen] until its [wait]
    has returned. *)
Definition is_wait (a : Action) : bool :=
  match a with DoWait _ => true | _ => false end.

Definition process_running (todo : list Action) : bool :=
  match todo with
  | DoPopen _ _ :: _ => false
  | _ => existsb is_wait todo
  end.

Definition running_count (s : Sys) : nat :=
  length (filter process_running (threads s)).

(** ** Vocabulary of the statements *)

(** The calls a slot made. *)
Definition effects_of (m : M unit) (g : Gui) : list Effect :=
  snd (fst (exec m g)).

(** The source and target a commit works on (lines 226-227). *)
Definition infile_of (g : Gui) : string := Py.strip (input_edit g).
Definition ofile_of (g : Gui) : string := Py.strip (dev_combo g).

(** The two boxes of lines 237-245. *)
Definition permission_box : Effect :=
  MsgCritical "Permission Error" "Requires root privileges.".

Definition busy_box : Effect :=
  MsgCritical "Device Busy" "Target device is mounted or in use.".

Definition privileges_box : Effect :=
  MsgCritical "Privileges" "Run as root or install sudo/doas.".

(** The mount query of line 286. *)
Definition lsblk_mount_query (device : string) : list string :=
  ["lsblk"; "-n"; "-o"; "MOUNTPOINT"; device].

(** Tells whether a log starts a worker with no device open-and-close
    since the last confirmation box; [checked] says whether one has been
    seen since then. *)
Fixpoint spawns_without_recheck (checked : bool) (es : list Effect) : bool :=
  match es with
  | [] => false
  | OsClose _ :: rest => spawns_without_recheck true rest
  | MsgWarning _ _ _ _ :: rest => spawns_without_recheck false rest
  | ThreadStart _ :: rest =>
      negb checked || spawns_without_recheck checked rest
  | _ :: rest => spawns_without_recheck checked rest
  end.

Definition is_tool_query (e : Effect) : Prop :=
  exists argv, e = SubprocessRun argv.

(** The prefixes a copy command may carry (lines 257-263). *)
Definition privilege_prefixes : list (list string) :=
  [[]; ["sudo"]; ["doas"]; ["pkexec"]].

(** An argument list of the shape: prefix, tool, source, target, block
    size, then the two optional flags, each a token of its own. *)
Definition copy_command (cmd : list string) : Prop :=
  exists (prefix : list string) (infile ofile : string) (bs : BlockSize)
         (sync progress : bool),
    In prefix privilege_prefixes
    /\ cmd = (prefix
              ++ ["dd"; ("if=" ++ infile)%string; ("of=" ++ ofile)%string;
                  ("bs=" ++ bs_text bs)%string]
              ++ (if sync then ["oflag=sync"] else [])
              ++ (if progress then ["status=progress"] else []))%list.

(** ** Invariants *)

(** What an entry of the call log may be: no signal is ever sent to a
    subprocess, a process is only ever created from a copy command given
    as an argument list, and the boxes are the seven of the source. *)
Definition expected (e : Effect) : Prop :=
  match e with
  | ProcSignal _ => False
  | Popen argv shell => shell = false /\ copy_command argv
  | ThreadStart cmd => copy_command cmd
  | MsgCritical title _ =>
      In title ["Error"; "Permission Error"; "Device Busy"; "Privileges"]
  | MsgInformation title _ => In title ["Done"; "Unmount"]
  | MsgWarning title _ buttons defaultButton =>
      title = "Confirm Disk Write"
      /\ buttons = [Ok; Cancel] /\ defaultButton = Cancel
  | _ => True
  end.

(** The entries of the device combo box are paths under [/dev]. *)
Definition device_path (d : string) : Prop :=
  exists name, d = "/dev/" ++ name.

Definition devices_ok (g : Gui) : Prop := Forall device_path (dev_items g).

Definition final {A} (r : Res A) : St :=
  match r with Ret _ s | Raise _ s => s end.

Definition st_ok (okE : Effect -> Prop) (okG : Gui -> Prop) (s : St) : Prop :=
  Forall okE (log s) /\ okG (gui s).

(** [m] keeps the log and the widgets within [okE] and [okG], whether it
    returns or raises. *)
Definition preserves (okE : Effect -> Prop) (okG : Gui -> Prop) {A}
    (m : M A) : Prop :=
  forall s, st_ok okE okG s -> st_ok okE okG (final (m s)).

Definition action_ok (a : Action) : Prop :=
  match a with
  | DoPopen cmd shell => expected (Popen cmd shell)
  | _ => True
  end.

Definition sys_ok (s : Sys) : Prop :=
  Forall expected (history s)
  /\ devices_ok (widgets s)
  /\ Forall (Forall action_ok) (threads s).

(** The states the application can be in. *)
Definition reachable (s : Sys) : Prop :=
  exists w0 inputs, s = run_inputs inputs (boot w0).

(** ** Sample environments and states *)

Definition list_string_eqb (a b : list string) : bool :=
  if list_eq_dec string_dec a b then true else false.

(** A machine with the disks [sdb] and [sdc], an image of 1 GiB at
    [/home/u/a.img], the tools listed in [tools], an unprivileged user
    unless [euid] is 0, and a copy that prints [lines] and exits with
    [status]; [mounts] is what the mount query prints for [/dev/sdb]. *)
Definition sample_world (euid : Z) (tools : list string)
    (open_answer : OSError + Z) (action : UserAction) (mounts : string)
    (lines : list string) (status : Z) : World :=
  mkWorld euid
    (fun t => if existsb (String.eqb t) tools
              then Some ("/usr/bin/" ++ t) else None)
    (fun p => String.eqb p "/home/u/a.img")
    (fun p => if String.eqb p "/home/u/a.img"
              then inr 1073741824 else inl FileNotFoundError)
    ["sda1"; "sdb"; "tty0"; "sdc"]
    (fun _ _ => open_answer)
    (fun _ => None)
    (fun argv => if list_string_eqb argv (lsblk_mount_query "/dev/sdb")
                 then inr mounts else inr (nl ++ nl))
    action
    (fun _ => inr (mkProc lines status)).

Definition progress_line : string :=
  "536870912 bytes (537 MB, 512 MiB) copied, 5 s, 107 MB/s" ++ nl.

(** The usual case: [pkexec] only, device free, operator accepts, the copy
    succeeds. *)
Definition w_ok : World :=
  sample_world 1000 ["pkexec"] (inr 3) (Choose Ok) (nl ++ nl)
               [progress_line] 0.

(** As [w_ok], but the copy fails: the device is too small. *)
Definition w_fail : World :=
  sample_world 1000 ["pkexec"] (inr 3) (Choose Ok) (nl ++ nl)
    ["dd: error writing '/dev/sdb': No space left on device" ++ nl] 1.

(** As [w_ok], but a partition of [/dev/sdb] is mounted. *)
Definition w_mounted : World :=
  sample_world 1000 ["pkexec"] (inr 3) (Choose Ok) ("/mnt/usb" ++ nl)
               [progress_line] 0.

(** As [w_ok], but with none of [sudo], [doas] and [pkexec]. *)
Definition w_bare : World :=
  sample_world 1000 [] (inr 3) (Choose Ok) (nl ++ nl) [progress_line] 0.

(** As [w_ok], but the command cannot be executed: [Popen] raises. *)
Definition w_no_dd : World :=
  mkWorld (geteuid w_ok) (which w_ok) (path_exists w_ok) (getsize w_ok)
          (listdir_dev w_ok) (os_open w_ok) (os_close w_ok)
          (subprocess_run w_ok) (user_action w_ok)
          (fun _ => inl FileNotFoundError).

(** The window after the image has been chosen. *)
Definition g_ready : Gui :=
  widgets (step (FileChosen w_ok "/home/u/a.img") (boot w_ok)).

(** The application while the copy started from [g_ready] is running. *)
Definition s_running : Sys :=
  run_inputs [FileChosen w_ok "/home/u/a.img"; StartClicked w_ok;
              ThreadStep 0]
             (boot w_ok).

(** A second commit on [/dev/sdb] while the first copy is still running,
    and the first step of its worker. *)
Definition s_twice : Sys :=
  run_inputs [StartClicked w_ok; ThreadStep 1] s_running.


(** ** Further vocabulary *)

(** The entries [refresh_devices] builds from the listing of [/dev]
    (lines 165-168). *)
Definition device_entries (w : World) : list string :=
  map (fun d => "/dev/" ++ d) (filter is_candidate (listdir_dev w)).

(** The entries of the device combo box and its current text. *)
Definition devs (g : Gui) : list string * string :=
  (dev_items g, dev_combo g).

(** What one action of a worker adds to the call log and to the text
    display, read off [perform]. *)
Definition action_trace (a : Action) : list Effect :=
  history (perform a (mkSys init_gui [] [] None)).

Definition action_texts (a : Action) : list string :=
  progress_display (widgets (perform a (mkSys init_gui [] [] None))).

(** Lets worker [k] take [n] steps in a row. *)
Definition run_thread (k n : nat) (s : Sys) : Sys :=
  run_inputs (repeat (ThreadStep k) n) s.

(** The device entries, the current one, and whether the start and the
    unmount buttons are enabled. *)
Definition controls (g : Gui) : list string * string * bool * bool :=
  (dev_items g, dev_combo g, start_btn g, unmount_btn g).

(** With no device to choose both buttons are as [__init__] made them,
    enabled; with one, exactly one of the two is enabled. *)
Definition buttons_consistent (g : Gui) : Prop :=
  match dev_items g with
  | [] => start_btn g = true /\ unmount_btn g = true
  | _ :: _ => start_btn g = negb (unmount_btn g)
  end.

(** The size query of line 180. *)
Definition lsblk_size_query (device : string) : list string :=
  ["lsblk"; "-b"; "-dn"; "-o"; "SIZE"; device].

(** Calls that open or close a descriptor. *)
Definition touches_descriptor (e : Effect) : bool :=
  match e with
  | OsOpen _ _ | OsClose _ => true
  | _ => false
  end.

(** Boxes shown to the operator. *)
Definition is_box (e : Effect) : bool :=
  match e with
  | MsgCritical _ _ | MsgInformation _ _ | MsgWarning _ _ _ _ => true
  | _ => false
  end.

(** A text without any whitespace character. *)
Fixpoint no_space (x : string) : bool :=
  match x with
  | EmptyString => true
  | String c x' => negb (Py.isspace c) && no_space x'
  end.

(** The box of [dd_finished]. *)
Definition done_box : Effect :=
  MsgInformation "Done" "DD completed successfully.".

(** Clicks on the start button. *)
Definition is_start (i : Input) : bool :=
  match i with StartClicked _ => true | _ => false end.

(** The attributes and widgets meant for progress reporting (lines 68-69,
    101-106). *)
Definition progress_state (g : Gui) : option Z * string * Z * Z :=
  (progress_bar g, eta_label g, last_bytes g, last_update_time g).

(** The unmount command of line 196. *)
Definition umount_command (device : string) : list string :=
  ["sudo"; "umount"; device ++ "*"].

(** * Properties *)

Ltac unfold_slot :=
  unfold effects_of, exec, start_dd, exclusive_open_check,
    confirm_destructive_write, get_lsblk_info, get_smart_info,
    get_mounted_partitions, update_dev_capacity, unmount_device,
    QMessageBox_warning, QMessageBox_critical, QMessageBox_information,
    run_stdout, call, query, try_except, bind, ret, raise, tell, read,
    modify, infile_of, ofile_of in *;
  cbn [gui log fst snd app] in *.

Ltac case_on t :=
  let E := fresh "E" in
  destruct t eqn:E; cbn [gui log fst snd app negb] in *.

(** Splits on an innermost scrutinee of the goal. *)
Ltac split_match :=
  match goal with
  | |- context [match ?x with _ => _ end] =>
      lazymatch x with
      | context [match _ with _ => _ end] => fail
      | _ => case_on x
      end
  end.

(** ** The string helpers and the device filter on small inputs *)

Example strip_line :
  Py.strip ("  512 bytes copied " ++ nl) = "512 bytes copied".
Proof. reflexivity. Qed.

Example strip_blank : Py.strip (nl ++ " " ++ nl) = "".
Proof. reflexivity. Qed.

Example contains_bytes :
  Py.contains "bytes" progress_line = true
  /\ Py.contains "bytes" "2+0 records in" = false.
Proof. split; reflexivity. Qed.

Example candidates :
  filter is_candidate ["sda"; "sda1"; "sdb"; "sr0"; "tty0"; "sd"]
  = ["sda"; "sdb"; "sd"].
Proof. reflexivity. Qed.

Example flags_value : Z.lor O_WRONLY O_EXCL = 129.
Proof. reflexivity. Qed.

Example read_stderr_sample :
  read_stderr ["1+0 records in" ++ nl; progress_line]
  = [Emit (progress
             "536870912 bytes (537 MB, 512 MiB) copied, 5 s, 107 MB/s")].
Proof. reflexivity. Qed.

(** ** Exclusive-open probe *)

(** C2: once the source is found to exist, a commit first opens the target
    with [O_EXCL] set.  When that open raises [PermissionError] the slot
    shows the permission box and returns; when it raises any other error it
    shows the busy box, a different one, and returns.  In both cases the
    widget state is untouched, no command is stored and no thread is
    started. *)
Theorem exclusive_open_failure_stops_commit :
  forall (w : World) (g : Gui),
    path_exists w (infile_of g) = true ->
    let flags := Z.lor O_WRONLY O_EXCL in
    Z.land flags O_EXCL = O_EXCL /\
    (exists rest,
        effects_of (start_dd w) g = OsOpen (ofile_of g) flags :: rest) /\
    (os_open w (ofile_of g) flags = inl PermissionError ->
     exec (start_dd w) g
     = (g, [OsOpen (ofile_of g) flags; permission_box], None)) /\
    (forall e,
        os_open w (ofile_of g) flags = inl e ->
        e <> PermissionError ->
        exec (start_dd w) g
        = (g, [OsOpen (ofile_of g) flags; busy_box], None)) /\
    permission_box <> busy_box /\
    (forall e,
        os_open w (ofile_of g) flags = inl e ->
        spawned (effects_of (start_dd w) g) = []
        /\ worker (fst (fst (exec (start_dd w) g))) = worker g).
Proof.
  intros w g Hex flags. subst flags.
  split; [reflexivity|].
  split.
  { unfold_slot. rewrite Hex. cbn [negb].
    repeat split_match; eexists; reflexivity. }
  split.
  { intros Hperm. unfold_slot. rewrite Hex, Hperm. destruct g; reflexivity. }
  split.
  { intros e He Hne. unfold_slot. rewrite Hex, He.
    destruct e; [congruence| |]; destruct g; reflexivity. }
  split; [discriminate|].
  intros e He. unfold_slot. rewrite Hex, He.
  destruct e; split; reflexivity.
Qed.

Lemma exclusive_open_failure_stops_commit_witness :
  exec (start_dd (sample_world 1000 ["sudo"] (inl (OtherOSError 16))
                              (Choose Ok) "/mnt/usb" [] 0)) g_ready
  = (g_ready, [OsOpen "/dev/sdb" 129; busy_box], None).
Proof.
  refine (proj1 (proj2 (proj2 (proj2
     (exclusive_open_failure_stops_commit
        (sample_world 1000 ["sudo"] (inl (OtherOSError 16))
                      (Choose Ok) "/mnt/usb" [] 0) g_ready _))))
     (OtherOSError 16) _ _).
  - reflexivity.
  - reflexivity.
  - discriminate.
Defined.

(** ** Order of the probe, the confirmation and the start of the worker *)

(** C3, as stated, fails: in the usual run the worker is started right
    after the confirmation box, and the device is not opened again in
    between. *)
Lemma no_recheck_after_confirmation :
  effects_of (start_dd w_ok) g_ready
  = [OsOpen "/dev/sdb" 129; OsClose 3; SubprocessRun ["lsblk"; "/dev/sdb"];
     MsgWarning "Confirm Disk Write"
       (warning_message "/dev/sdb" "" None "/home/u/a.img")
       [Ok; Cancel] Cancel;
     ThreadStart ["pkexec"; "dd"; "if=/home/u/a.img"; "of=/dev/sdb";
                  "bs=512k"; "oflag=sync"; "status=progress"]]
  /\ spawns_without_recheck false (effects_of (start_dd w_ok) g_ready) = true.
Proof. split; reflexivity. Qed.

(** C3, amended: the exclusive open is made once per commit, before the
    confirmation.  Whenever [start_dd] starts a worker, its calls were, in
    this order: the open of the target with [O_EXCL], which succeeded, the
    close of that descriptor, which succeeded, the tool queries of the
    confirmation, the confirmation box, answered with Ok, and the start of
    the worker. *)
Theorem check_precedes_confirmation_precedes_spawn :
  forall (w : World) (g : Gui) (cmd : list string),
    In (ThreadStart cmd) (effects_of (start_dd w) g) ->
    exists fd queries text,
      os_open w (ofile_of g) (Z.lor O_WRONLY O_EXCL) = inr fd
      /\ os_close w fd = None
      /\ dialog_result [Ok; Cancel] Cancel (user_action w) = Ok
      /\ Forall is_tool_query queries
      /\ effects_of (start_dd w) g
         = ([OsOpen (ofile_of g) (Z.lor O_WRONLY O_EXCL); OsClose fd]
            ++ queries
            ++ [MsgWarning "Confirm Disk Write" text [Ok; Cancel] Cancel;
                ThreadStart cmd])%list.
Proof.
  intros w g cmd. unfold_slot.
  repeat split_match;
    intros H; cbn [In] in H;
    repeat (destruct H as [H|H]; [try discriminate H|]);
    try contradiction; inversion H; subst; clear H.
  all: match goal with
       | E : negb (StandardButton_eqb ?r Ok) = false |- _ =>
           assert (Hr : r = Ok)
             by (revert E; destruct r; intros E;
                 try discriminate E; reflexivity)
       end.
  all: first [ eexists _, [_], _;
               repeat (split; [first [reflexivity|eassumption]|]);
               split; [|reflexivity]
             | eexists _, [_; _], _;
               repeat (split; [first [reflexivity|eassumption]|]);
               split; [|reflexivity] ].
  all: repeat constructor; eexists; reflexivity.
Qed.

Lemma check_precedes_confirmation_precedes_spawn_witness :
  exists fd queries text,
    os_open w_ok (ofile_of g_ready) (Z.lor O_WRONLY O_EXCL) = inr fd
    /\ os_close w_ok fd = None
    /\ dialog_result [Ok; Cancel] Cancel (user_action w_ok) = Ok
    /\ Forall is_tool_query queries
    /\ effects_of (start_dd w_ok) g_ready
       = ([OsOpen (ofile_of g_ready) (Z.lor O_WRONLY O_EXCL); OsClose fd]
          ++ queries
          ++ [MsgWarning "Confirm Disk Write" text [Ok; Cancel] Cancel;
              ThreadStart ["pkexec"; "dd"; "if=/home/u/a.img"; "of=/dev/sdb";
                           "bs=512k"; "oflag=sync"; "status=progress"]])%list.
Proof.
  apply (check_precedes_confirmation_precedes_spawn w_ok g_ready).
  vm_compute. do 4 right. left. reflexivity.
Defined.

(** ** Invariants of slots, by their structure *)

Section Preservation.

Variable okE : Effect -> Prop.
Variable okG : Gui -> Prop.

Lemma preserves_ret {A} (a : A) : preserves okE okG (ret a).
Proof. intros s H. exact H. Qed.

Lemma preserves_raise {A} (e : OSError) : preserves okE okG (@raise A e).
Proof. intros s H. exact H. Qed.

Lemma preserves_read {A} (f : Gui -> A) : preserves okE okG (read f).
Proof. intros s H. exact H. Qed.

Lemma preserves_query {A} (answer : OSError + A) :
  preserves okE okG (query answer).
Proof. intros s H. destruct answer; exact H. Qed.

Lemma preserves_tell (e : Effect) : okE e -> preserves okE okG (tell e).
Proof.
  intros He s [Hl Hg]. split; cbn; [|exact Hg].
  apply Forall_app. split; [exact Hl|]. constructor; [exact He|constructor].
Qed.

Lemma preserves_modify (f : Gui -> Gui) :
  (forall g, okG g -> okG (f g)) -> preserves okE okG (modify f).
Proof. intros Hf s [Hl Hg]. split; cbn; [exact Hl|apply Hf, Hg]. Qed.

Lemma preserves_bind {A B} (m : M A) (k : A -> M B) :
  preserves okE okG m ->
  (forall a, preserves okE okG (k a)) ->
  preserves okE okG (bind m k).
Proof.
  intros Hm Hk s Hs. unfold bind. specialize (Hm s Hs).
  destruct (m s) as [a s'|e s']; cbn in Hm.
  - apply Hk, Hm.
  - exact Hm.
Qed.

Lemma preserves_try_except {A} (m : M A) (h : OSError -> M A) :
  preserves okE okG m ->
  (forall e, preserves okE okG (h e)) ->
  preserves okE okG (try_except m h).
Proof.
  intros Hm Hh s Hs. unfold try_except. specialize (Hm s Hs).
  destruct (m s) as [a s'|e s']; cbn in Hm.
  - exact Hm.
  - apply Hh, Hm.
Qed.

Lemma preserves_call {A} (e : Effect) (answer : OSError + A) :
  okE e -> preserves okE okG (call e answer).
Proof.
  intros He. apply preserves_bind; [apply preserves_tell, He|].
  intros _. apply preserves_query.
Qed.

End Preservation.

Ltac preserve_step :=
  first
    [ apply preserves_ret | apply preserves_raise | apply preserves_read
    | apply preserves_query
    | apply preserves_bind; [|intros ?]
    | apply preserves_try_except; [|intros ?]
    | apply preserves_call | apply preserves_tell | apply preserves_modify
    | match goal with
      | |- preserves _ _ (if ?b then _ else _) => destruct b
      | |- preserves _ _ (match ?x with _ => _ end) => destruct x eqn:?
      end ].

Ltac preserve := repeat preserve_step.

(** ** The slots of the program keep the log and the widgets in order *)

Lemma with_privileges_cases (w : World) (cmd : list string) :
  with_privileges w cmd = None
  \/ exists prefix,
      In prefix privilege_prefixes
      /\ with_privileges w cmd = Some (prefix ++ cmd)%list.
Proof.
  unfold with_privileges, privilege_prefixes.
  destruct (is_root w); cbn [negb].
  - right. exists []. cbn. auto.
  - destruct (has_sudo w); [right; exists ["sudo"]; cbn; auto|].
    destruct (has_doas w); [right; exists ["doas"]; cbn; auto|].
    destruct (has_pkexec w); [right; exists ["pkexec"]; cbn; auto 6|].
    left. reflexivity.
Qed.

Lemma with_privileges_copy_command (w : World) (infile ofile : string)
    (bs : BlockSize) (sync progress : bool) (cmd : list string) :
  with_privileges w (dd_command infile ofile bs sync progress) = Some cmd ->
  copy_command cmd.
Proof.
  intros H.
  destruct (with_privileges_cases w
              (dd_command infile ofile bs sync progress))
    as [E|(prefix & Hin & E)]; rewrite E in H; [discriminate H|].
  injection H as <-.
  exists prefix, infile, ofile, bs, sync, progress.
  split; [exact Hin|reflexivity].
Qed.

Ltac side_conditions :=
  try solve [ intros ? H; exact H
            | exact I
            | cbn; tauto
            | cbn; auto 8 ].

Lemma update_progress_ok (text : string) :
  preserves expected devices_ok (update_progress text).
Proof. unfold update_progress. preserve; side_conditions. Qed.

Lemma dd_finished_ok : preserves expected devices_ok dd_finished.
Proof.
  unfold dd_finished, QMessageBox_information. preserve; side_conditions.
Qed.

Lemma update_dev_capacity_ok (w : World) :
  preserves expected devices_ok (update_dev_capacity w).
Proof.
  unfold update_dev_capacity, get_mounted_partitions, run_stdout.
  preserve; side_conditions.
Qed.

Lemma unmount_device_ok (w : World) :
  preserves expected devices_ok (unmount_device w).
Proof.
  unfold unmount_device, run_stdout, QMessageBox_information.
  preserve; side_conditions.
Qed.

Lemma browse_file_ok (w : World) (file_path : string) :
  preserves expected devices_ok (browse_file w file_path).
Proof.
  unfold browse_file, show_file_size. preserve; side_conditions.
Qed.

Lemma start_dd_ok (w : World) :
  preserves expected devices_ok (start_dd w).
Proof.
  unfold start_dd, exclusive_open_check, confirm_destructive_write,
    get_lsblk_info, get_smart_info, QMessageBox_warning,
    QMessageBox_critical, run_stdout.
  preserve; side_conditions.
  cbn. eapply with_privileges_copy_command. eassumption.
Qed.

Lemma candidate_paths_ok (names : list string) :
  Forall device_path (map (fun d => "/dev/" ++ d) names).
Proof.
  induction names as [|n names IH]; cbn; constructor.
  - exists n. reflexivity.
  - exact IH.
Qed.

Lemma DDGui_init_ok (w : World) :
  preserves expected devices_ok (DDGui_init w).
Proof.
  unfold DDGui_init, refresh_devices.
  preserve; side_conditions.
  - intros g _. constructor.
  - intros g _. unfold devices_ok. cbn [dev_items set_devices].
    match goal with E : _ = ?d :: ?l |- _ => rewrite <- E end.
    apply candidate_paths_ok.
Qed.

(** ** The running application stays in order *)

Lemma read_stderr_ok (lines : list string) :
  Forall action_ok (read_stderr lines).
Proof.
  induction lines as [|line rest IH]; cbn [read_stderr]; [constructor|].
  apply Forall_app. split; [|exact IH].
  destruct (Py.contains "bytes" line); repeat constructor.
Qed.

Lemma DDWorker_run_ok (w : World) (cmd : list string) :
  copy_command cmd -> Forall action_ok (DDWorker_run w cmd).
Proof.
  intros Hc. unfold DDWorker_run. constructor.
  - cbn. split; [reflexivity|exact Hc].
  - destruct (popen w cmd) as [e|process]; [repeat constructor|].
    apply Forall_app. split; [apply read_stderr_ok|repeat constructor].
Qed.

Lemma spawned_ok (es : list Effect) :
  Forall expected es -> Forall copy_command (spawned es).
Proof.
  induction 1 as [|e es He Hes IH]; cbn; [constructor|].
  apply Forall_app. split; [|exact IH].
  destruct e; try constructor; [exact He|constructor].
Qed.

Lemma run_slot_ok (w : World) (m : M unit) (s : Sys) :
  preserves expected devices_ok m -> sys_ok s -> sys_ok (run_slot w m s).
Proof.
  intros Hm (Hh & Hg & Ht).
  assert (Hs : st_ok expected devices_ok (mkSt (widgets s) []))
    by (split; [constructor|exact Hg]).
  specialize (Hm _ Hs). unfold run_slot, exec.
  destruct (m (mkSt (widgets s) [])) as [u s'|e s'];
    cbn [final] in Hm; destruct Hm as [Hl Hw];
    (split; [|split]); cbn [history widgets threads];
    try (apply Forall_app; split); try assumption.
  all: apply Forall_forall; intros todo Hin;
    apply in_map_iff in Hin; destruct Hin as (cmd & <- & Hin);
    apply DDWorker_run_ok;
    exact (proj1 (Forall_forall _ _) (spawned_ok _ Hl) _ Hin).
Qed.

Lemma replace_nth_Forall {A} (P : A -> Prop) (k : nat) (x : A) (l : list A) :
  P x -> Forall P l -> Forall P (replace_nth k x l).
Proof.
  intros Hx Hl. revert k.
  induction Hl as [|h t Hh Ht IH]; intros k.
  - destruct k; constructor.
  - destruct k; cbn; constructor; auto.
Qed.

Lemma nth_error_Forall {A} (P : A -> Prop) (k : nat) (x : A) (l : list A) :
  Forall P l -> nth_error l k = Some x -> P x.
Proof.
  intros Hl Hk. apply nth_error_In in Hk.
  exact (proj1 (Forall_forall _ _) Hl _ Hk).
Qed.

Lemma perform_ok (a : Action) (s : Sys) :
  action_ok a -> sys_ok s -> sys_ok (perform a s).
Proof.
  intros Ha Hs. destruct a as [cmd shell|[text|]|status|e]; cbn [perform].
  - destruct Hs as (Hh & Hg & Ht). split; [|split]; cbn; try assumption.
    apply Forall_app. split; [exact Hh|]. constructor; [exact Ha|constructor].
  - apply run_slot_ok; [apply update_progress_ok|exact Hs].
  - apply run_slot_ok; [apply dd_finished_ok|exact Hs].
  - destruct Hs as (Hh & Hg & Ht). split; [|split]; cbn; try assumption.
    apply Forall_app. split; [exact Hh|]. constructor; [exact I|constructor].
  - exact Hs.
Qed.

Lemma step_ok (i : Input) (s : Sys) : sys_ok s -> sys_ok (step i s).
Proof.
  intros Hs. unfold step. destruct (crashed s); [exact Hs|].
  destruct i as [w p|text|b|b|b|w i|w|w|k].
  - apply run_slot_ok; [apply browse_file_ok|exact Hs].
  - exact Hs.
  - exact Hs.
  - exact Hs.
  - exact Hs.
  - destruct (nth_error (dev_items (widgets s)) i) as [d|]; [|exact Hs].
    destruct (String.eqb d (dev_combo (widgets s))); [exact Hs|].
    apply run_slot_ok; [apply update_dev_capacity_ok|exact Hs].
  - destruct (unmount_btn (widgets s)); [|exact Hs].
    apply run_slot_ok; [apply unmount_device_ok|exact Hs].
  - destruct (start_btn (widgets s)); [|exact Hs].
    apply run_slot_ok; [apply start_dd_ok|exact Hs].
  - destruct (nth_error (threads s) k) as [[|a rest]|] eqn:E;
      try exact Hs.
    destruct Hs as (Hh & Hg & Ht).
    pose proof (nth_error_Forall _ _ _ _ Ht E) as Hk.
    inversion Hk as [|? ? Ha Hrest]; subst.
    apply perform_ok; [exact Ha|].
    split; [|split]; cbn; try assumption.
    apply replace_nth_Forall; assumption.
Qed.

Lemma boot_ok (w : World) : sys_ok (boot w).
Proof.
  apply run_slot_ok; [apply DDGui_init_ok|].
  split; [|split]; cbn; constructor.
Qed.

Lemma run_inputs_ok (inputs : list Input) :
  forall s, sys_ok s -> sys_ok (run_inputs inputs s).
Proof.
  induction inputs as [|i inputs IH]; intros s Hs; cbn; [exact Hs|].
  apply IH, step_ok, Hs.
Qed.

Lemma reachable_ok (s : Sys) : reachable s -> sys_ok s.
Proof. intros (w0 & inputs & ->). apply run_inputs_ok, boot_ok. Qed.

(** What [start_dd] starts is the privileged form of the command built
    from the widgets. *)
Lemma start_dd_spawns (w : World) (g : Gui) (cmd : list string) :
  In (ThreadStart cmd) (effects_of (start_dd w) g) ->
  with_privileges w
    (dd_command (infile_of g) (ofile_of g) (bs_combo g) (sync_checkbox g)
                (progress_checkbox g)) = Some cmd.
Proof.
  unfold_slot.
  repeat split_match;
    intros H; cbn [In] in H;
    repeat (destruct H as [H|H]; [try discriminate H|]);
    try contradiction.
  all: inversion H; subst; reflexivity.
Qed.

Lemma spawned_app (a b : list Effect) :
  spawned (a ++ b) = (spawned a ++ spawned b)%list.
Proof. unfold spawned. apply flat_map_app. Qed.

Lemma spawned_queries (queries : list Effect) :
  Forall is_tool_query queries -> spawned queries = [].
Proof.
  induction 1 as [|e es [argv ->] _ IH]; [reflexivity|exact IH].
Qed.

(** A commit that passes every gate, spelled out. *)
Lemma start_dd_success (w : World) (g : Gui) (fd : Z) (cmd : list string) :
  path_exists w (infile_of g) = true ->
  os_open w (ofile_of g) (Z.lor O_WRONLY O_EXCL) = inr fd ->
  os_close w fd = None ->
  (forall argv, exists out, subprocess_run w argv = inr out) ->
  dialog_result [Ok; Cancel] Cancel (user_action w) = Ok ->
  with_privileges w
    (dd_command (infile_of g) (ofile_of g) (bs_combo g) (sync_checkbox g)
                (progress_checkbox g)) = Some cmd ->
  exists queries text,
    Forall is_tool_query queries
    /\ exec (start_dd w) g
       = (set_worker cmd
            (display_append ("Running: " ++ Py.join " " cmd ++ nl) g),
          ([OsOpen (ofile_of g) (Z.lor O_WRONLY O_EXCL); OsClose fd]
           ++ queries
           ++ [MsgWarning "Confirm Disk Write" text [Ok; Cancel] Cancel;
               ThreadStart cmd])%list,
          None).
Proof.
  intros Hex Hopen Hclose Hrun Hok Hpriv.
  destruct (Hrun ["lsblk"; ofile_of g]) as [layout Hlayout].
  destruct (Hrun ["smartctl"; "-i"; ofile_of g]) as [info Hinfo].
  unfold_slot.
  rewrite Hex, Hopen. cbn [negb gui log app]. rewrite Hclose.
  cbn [gui log app]. rewrite Hlayout. cbn [gui log app].
  destruct (which w "smartctl"); [rewrite Hinfo|];
    cbn [gui log app]; rewrite Hok; cbn [StandardButton_eqb negb gui log app];
    rewrite Hpriv; cbn [gui log app].
  - exists [SubprocessRun ["lsblk"; Py.strip (dev_combo g)];
            SubprocessRun ["smartctl"; "-i"; Py.strip (dev_combo g)]].
    eexists. split; [repeat constructor; eexists; reflexivity|reflexivity].
  - exists [SubprocessRun ["lsblk"; Py.strip (dev_combo g)]].
    eexists. split; [repeat constructor; eexists; reflexivity|reflexivity].
Qed.

(** A commit that passes every gate but finds no way to get privileges,
    spelled out. *)
Lemma start_dd_no_privileges (w : World) (g : Gui) (fd : Z) :
  path_exists w (infile_of g) = true ->
  os_open w (ofile_of g) (Z.lor O_WRONLY O_EXCL) = inr fd ->
  os_close w fd = None ->
  (forall argv, exists out, subprocess_run w argv = inr out) ->
  dialog_result [Ok; Cancel] Cancel (user_action w) = Ok ->
  with_privileges w
    (dd_command (infile_of g) (ofile_of g) (bs_combo g) (sync_checkbox g)
                (progress_checkbox g)) = None ->
  exists queries text,
    Forall is_tool_query queries
    /\ exec (start_dd w) g
       = (g,
          ([OsOpen (ofile_of g) (Z.lor O_WRONLY O_EXCL); OsClose fd]
           ++ queries
           ++ [MsgWarning "Confirm Disk Write" text [Ok; Cancel] Cancel;
               privileges_box])%list,
          None).
Proof.
  intros Hex Hopen Hclose Hrun Hok Hpriv.
  destruct (Hrun ["lsblk"; ofile_of g]) as [layout Hlayout].
  destruct (Hrun ["smartctl"; "-i"; ofile_of g]) as [info Hinfo].
  unfold_slot.
  rewrite Hex, Hopen. cbn [negb gui log app]. rewrite Hclose.
  cbn [gui log app]. rewrite Hlayout. cbn [gui log app].
  destruct (which w "smartctl"); [rewrite Hinfo|];
    cbn [gui log app]; rewrite Hok; cbn [StandardButton_eqb negb gui log app];
    rewrite Hpriv; cbn [gui log app].
  - exists [SubprocessRun ["lsblk"; Py.strip (dev_combo g)];
            SubprocessRun ["smartctl"; "-i"; Py.strip (dev_combo g)]].
    eexists. split; [repeat constructor; eexists; reflexivity|].
    destruct g; reflexivity.
  - exists [SubprocessRun ["lsblk"; Py.strip (dev_combo g)]].
    eexists. split; [repeat constructor; eexists; reflexivity|].
    destruct g; reflexivity.
Qed.

Lemma nth_error_snoc {A} (l : list A) (x : A) :
  nth_error (l ++ [x]) (length l) = Some x.
Proof. induction l as [|h t IH]; [reflexivity|exact IH]. Qed.

Lemma replace_nth_snoc {A} (l : list A) (x y : A) :
  replace_nth (length l) y (l ++ [x]) = (l ++ [y])%list.
Proof.
  induction l as [|h t IH]; [reflexivity|]. cbn. rewrite IH. reflexivity.
Qed.

(** A click on Start that passes every gate, and the first step of the
    worker it starts. *)
Lemma start_clicked_success (w : World) (s : Sys) (fd : Z)
    (cmd : list string) :
  crashed s = None ->
  start_btn (widgets s) = true ->
  path_exists w (infile_of (widgets s)) = true ->
  os_open w (ofile_of (widgets s)) (Z.lor O_WRONLY O_EXCL) = inr fd ->
  os_close w fd = None ->
  (forall argv, exists out, subprocess_run w argv = inr out) ->
  dialog_result [Ok; Cancel] Cancel (user_action w) = Ok ->
  with_privileges w
    (dd_command (infile_of (widgets s)) (ofile_of (widgets s))
                (bs_combo (widgets s)) (sync_checkbox (widgets s))
                (progress_checkbox (widgets s))) = Some cmd ->
  exists queries text,
    Forall is_tool_query queries
    /\ step (StartClicked w) s
       = mkSys
           (set_worker cmd
              (display_append ("Running: " ++ Py.join " " cmd ++ nl)
                 (widgets s)))
           (history s
            ++ [OsOpen (ofile_of (widgets s)) (Z.lor O_WRONLY O_EXCL);
                OsClose fd]
            ++ queries
            ++ [MsgWarning "Confirm Disk Write" text [Ok; Cancel] Cancel;
                ThreadStart cmd])
           (threads s ++ [DDWorker_run w cmd]) None.
Proof.
  intros Hlive Hbtn Hex Hopen Hclose Hrun Hok Hpriv.
  destruct (start_dd_success w (widgets s) fd cmd Hex Hopen Hclose Hrun Hok
              Hpriv) as (queries & text & Hq & Hexec).
  exists queries, text. split; [exact Hq|].
  unfold step. rewrite Hlive, Hbtn. unfold run_slot.
  rewrite Hexec. f_equal.
  rewrite !spawned_app, (spawned_queries _ Hq). reflexivity.
Qed.

Lemma first_step_of_new_worker (w : World) (cmd : list string) (g : Gui)
    (h : list Effect) (ts : list (list Action)) :
  history (step (ThreadStep (length ts))
                (mkSys g h (ts ++ [DDWorker_run w cmd]) None))
  = (h ++ [Popen cmd false])%list.
Proof.
  unfold step. cbn [crashed threads]. rewrite nth_error_snoc.
  unfold DDWorker_run. reflexivity.
Qed.

(** ** Privilege resolution *)

(** C6: a process whose effective user is root gets the command as it is;
    any other gets it prefixed by [sudo] if present, else by [doas] if
    present, else by [pkexec] if present (so with only [pkexec] present it
    is [pkexec]); the worker [start_dd] starts runs exactly this command.
    With none of the three, [start_dd] starts no worker, leaves
    [self.worker] alone and, once the operator has accepted the
    confirmation, its last act is the privileges box.  A commit that
    passes the gates (source found, exclusive open and close done,
    queries answered, confirmation accepted) does one of two things: when
    the resolution gives a command it stores that command, notes it in
    the text display and starts a worker on it as its last act; when the
    resolution gives none it shows the privileges box as its last act and
    leaves the window as it was. *)
Theorem privilege_resolution :
  forall (w : World) (g : Gui) (cmd : list string),
    (geteuid w = 0 -> with_privileges w cmd = Some cmd)
    /\ (geteuid w <> 0 ->
        with_privileges w cmd
        = if has_sudo w then Some ("sudo" :: cmd)
          else if has_doas w then Some ("doas" :: cmd)
          else if has_pkexec w then Some ("pkexec" :: cmd)
          else None)
    /\ (geteuid w <> 0 -> which w "sudo" = None -> which w "doas" = None ->
        which w "pkexec" <> None ->
        with_privileges w cmd = Some ("pkexec" :: cmd))
    /\ (forall started,
           In (ThreadStart started) (effects_of (start_dd w) g) ->
           with_privileges w
             (dd_command (infile_of g) (ofile_of g) (bs_combo g)
                         (sync_checkbox g) (progress_checkbox g))
           = Some started)
    /\ (geteuid w <> 0 -> which w "sudo" = None -> which w "doas" = None ->
        which w "pkexec" = None ->
        spawned (effects_of (start_dd w) g) = []
        /\ worker (fst (fst (exec (start_dd w) g))) = worker g
        /\ (forall title text buttons defaultButton,
               In (MsgWarning title text buttons defaultButton)
                  (effects_of (start_dd w) g) ->
               dialog_result buttons defaultButton (user_action w) = Ok ->
               exists before,
                 effects_of (start_dd w) g
                 = (before ++ [privileges_box])%list))
    /\ (forall fd resolved,
           path_exists w (infile_of g) = true ->
           os_open w (ofile_of g) (Z.lor O_WRONLY O_EXCL) = inr fd ->
           os_close w fd = None ->
           (forall argv, exists out, subprocess_run w argv = inr out) ->
           dialog_result [Ok; Cancel] Cancel (user_action w) = Ok ->
           with_privileges w
             (dd_command (infile_of g) (ofile_of g) (bs_combo g)
                         (sync_checkbox g) (progress_checkbox g))
           = Some resolved ->
           exists queries text,
             Forall is_tool_query queries
             /\ exec (start_dd w) g
                = (set_worker resolved
                     (display_append
                        ("Running: " ++ Py.join " " resolved ++ nl) g),
                   ([OsOpen (ofile_of g) (Z.lor O_WRONLY O_EXCL);
                     OsClose fd]
                    ++ queries
                    ++ [MsgWarning "Confirm Disk Write" text [Ok; Cancel]
                                   Cancel;
                        ThreadStart resolved])%list,
                   None))
    /\ (forall fd,
           path_exists w (infile_of g) = true ->
           os_open w (ofile_of g) (Z.lor O_WRONLY O_EXCL) = inr fd ->
           os_close w fd = None ->
           (forall argv, exists out, subprocess_run w argv = inr out) ->
           dialog_result [Ok; Cancel] Cancel (user_action w) = Ok ->
           with_privileges w
             (dd_command (infile_of g) (ofile_of g) (bs_combo g)
                         (sync_checkbox g) (progress_checkbox g))
           = None ->
           exists queries text,
             Forall is_tool_query queries
             /\ exec (start_dd w) g
                = (g,
                   ([OsOpen (ofile_of g) (Z.lor O_WRONLY O_EXCL);
                     OsClose fd]
                    ++ queries
                    ++ [MsgWarning "Confirm Disk Write" text [Ok; Cancel]
                                   Cancel;
                        privileges_box])%list,
                   None)).
Proof.
  intros w g cmd.
  assert (Hroot : geteuid w = 0 -> is_root w = true)
    by (intros E; unfold is_root; rewrite E; reflexivity).
  assert (Huser : geteuid w <> 0 -> is_root w = false)
    by (intros E; unfold is_root; apply Z.eqb_neq, E).
  split; [|split; [|split; [|split; [|split; [|split]]]]].
  - intros E. unfold with_privileges. rewrite (Hroot E). reflexivity.
  - intros E. unfold with_privileges. rewrite (Huser E). reflexivity.
  - intros E Hs Hd Hp. unfold with_privileges, has_sudo, has_doas, has_pkexec.
    rewrite (Huser E), Hs, Hd. cbn.
    destruct (which w "pkexec"); [reflexivity|congruence].
  - intros started. apply start_dd_spawns.
  - intros E Hs Hd Hp.
    assert (Hnone : forall c, with_privileges w c = None).
    { intros c. unfold with_privileges, has_sudo, has_doas, has_pkexec.
      rewrite (Huser E), Hs, Hd, Hp. reflexivity. }
    unfold_slot.
    repeat split_match;
      try match goal with
          | H : with_privileges _ _ = Some _ |- _ =>
              rewrite Hnone in H; discriminate H
          end;
      (split; [reflexivity|]); (split; [reflexivity|]);
      intros title text buttons defaultButton H; cbn [In] in H;
      repeat (destruct H as [H|H]; [try discriminate H|]);
      try contradiction; inversion H; subst; clear H; intros Hr.
    all: try (rewrite Hr in *; discriminate).
    all: match goal with
         | |- exists before, ?l = _ =>
             exists (removelast l); reflexivity
         end.
  - intros fd resolved. apply start_dd_success.
  - intros fd. apply start_dd_no_privileges.
Qed.

Lemma privilege_resolution_witness :
  with_privileges w_ok ["dd"] = Some ["pkexec"; "dd"]
  /\ (exists queries text,
         Forall is_tool_query queries
         /\ exec (start_dd w_ok) g_ready
            = (set_worker
                 ["pkexec"; "dd"; "if=/home/u/a.img"; "of=/dev/sdb";
                  "bs=512k"; "oflag=sync"; "status=progress"]
                 (display_append
                    ("Running: "
                     ++ Py.join " "
                          ["pkexec"; "dd"; "if=/home/u/a.img";
                           "of=/dev/sdb"; "bs=512k"; "oflag=sync";
                           "status=progress"]
                     ++ nl) g_ready),
               ([OsOpen (ofile_of g_ready) (Z.lor O_WRONLY O_EXCL);
                 OsClose 3]
                ++ queries
                ++ [MsgWarning "Confirm Disk Write" text [Ok; Cancel] Cancel;
                    ThreadStart
                      ["pkexec"; "dd"; "if=/home/u/a.img"; "of=/dev/sdb";
                       "bs=512k"; "oflag=sync"; "status=progress"]])%list,
               None))
  /\ (exists queries text,
         Forall is_tool_query queries
         /\ exec (start_dd w_bare) g_ready
            = (g_ready,
               ([OsOpen (ofile_of g_ready) (Z.lor O_WRONLY O_EXCL);
                 OsClose 3]
                ++ queries
                ++ [MsgWarning "Confirm Disk Write" text [Ok; Cancel] Cancel;
                    privileges_box])%list,
               None)).
Proof.
  assert (Hrun : forall euid tools argv,
             exists out,
               subprocess_run
                 (sample_world euid tools (inr 3) (Choose Ok) (nl ++ nl)
                               [progress_line] 0) argv = inr out).
  { intros euid tools argv. cbn.
    destruct (list_string_eqb argv (lsblk_mount_query "/dev/sdb"));
      eexists; reflexivity. }
  split; [|split].
  - refine (proj1 (proj2 (proj2 (privilege_resolution w_ok g_ready ["dd"])))
              _ _ _ _).
    + discriminate.
    + reflexivity.
    + reflexivity.
    + discriminate.
  - refine (proj1 (proj2 (proj2 (proj2 (proj2 (proj2
              (privilege_resolution w_ok g_ready []))))))
              3 _ _ _ _ (Hrun _ _) _ _); vm_compute; reflexivity.
  - refine (proj2 (proj2 (proj2 (proj2 (proj2 (proj2
              (privilege_resolution w_bare g_ready []))))))
              3 _ _ _ (Hrun _ _) _ _); vm_compute; reflexivity.
Defined.

(** ** The copy command *)

(** C7: the command [start_dd] hands to the worker is the list made of
    the privilege prefix, if any, then [dd], [if=] the source, [of=] the
    target, [bs=] the selected block size, then [oflag=sync] and
    [status=progress] when ticked, each a list element of its own, whatever
    the source path, the target path and the block size are; the worker
    passes that very list to [Popen] with [shell] false.  In every state
    the application can reach, each process was created that way.  A
    commit that passes the gates builds this list from the widgets and
    starts a worker on it, and the first thing that worker does is to call
    [Popen] on the list, [shell] false. *)
Theorem copy_command_is_argument_list :
  forall (w : World) (g : Gui) (cmd : list string) (s : Sys),
    (In (ThreadStart cmd) (effects_of (start_dd w) g) ->
     exists prefix,
       In prefix privilege_prefixes
       /\ cmd = (prefix
                 ++ ["dd"; ("if=" ++ infile_of g)%string;
                     ("of=" ++ ofile_of g)%string;
                     ("bs=" ++ bs_text (bs_combo g))%string]
                 ++ (if sync_checkbox g then ["oflag=sync"] else [])
                 ++ (if progress_checkbox g then ["status=progress"] else [])
                )%list)
    /\ (forall w', hd_error (DDWorker_run w' cmd) = Some (DoPopen cmd false))
    /\ (reachable s ->
        (forall argv, In (ThreadStart argv) (history s) -> copy_command argv)
        /\ (forall argv shell,
               In (Popen argv shell) (history s) ->
               shell = false /\ copy_command argv))
    /\ (forall fd resolved,
           path_exists w (infile_of g) = true ->
           os_open w (ofile_of g) (Z.lor O_WRONLY O_EXCL) = inr fd ->
           os_close w fd = None ->
           (forall argv, exists out, subprocess_run w argv = inr out) ->
           dialog_result [Ok; Cancel] Cancel (user_action w) = Ok ->
           with_privileges w
             (dd_command (infile_of g) (ofile_of g) (bs_combo g)
                         (sync_checkbox g) (progress_checkbox g))
           = Some resolved ->
           (exists prefix,
               In prefix privilege_prefixes
               /\ resolved
                  = (prefix
                     ++ ["dd"; ("if=" ++ infile_of g)%string;
                         ("of=" ++ ofile_of g)%string;
                         ("bs=" ++ bs_text (bs_combo g))%string]
                     ++ (if sync_checkbox g then ["oflag=sync"] else [])
                     ++ (if progress_checkbox g
                         then ["status=progress"] else []))%list)
           /\ (exists queries text,
                  Forall is_tool_query queries
                  /\ effects_of (start_dd w) g
                     = ([OsOpen (ofile_of g) (Z.lor O_WRONLY O_EXCL);
                         OsClose fd]
                        ++ queries
                        ++ [MsgWarning "Confirm Disk Write" text
                                       [Ok; Cancel] Cancel;
                            ThreadStart resolved])%list)
           /\ (forall s0,
                  crashed s0 = None ->
                  start_btn (widgets s0) = true ->
                  widgets s0 = g ->
                  exists queries text,
                    Forall is_tool_query queries
                    /\ history
                         (step (ThreadStep (length (threads s0)))
                               (step (StartClicked w) s0))
                       = (history s0
                          ++ [OsOpen (ofile_of g) (Z.lor O_WRONLY O_EXCL);
                              OsClose fd]
                          ++ queries
                          ++ [MsgWarning "Confirm Disk Write" text
                                         [Ok; Cancel] Cancel;
                              ThreadStart resolved;
                              Popen resolved false])%list)).
Proof.
  intros w g cmd s. split; [|split; [|split]].
  - intros H. apply start_dd_spawns in H.
    destruct (with_privileges_cases w
                (dd_command (infile_of g) (ofile_of g) (bs_combo g)
                            (sync_checkbox g) (progress_checkbox g)))
      as [E|(prefix & Hin & E)]; rewrite E in H; [discriminate H|].
    injection H as <-. exists prefix. split; [exact Hin|reflexivity].
  - intros w'. reflexivity.
  - intros Hs. apply reachable_ok in Hs. destruct Hs as (Hh & _ & _).
    split.
    + intros argv Hin. exact (proj1 (Forall_forall _ _) Hh _ Hin).
    + intros argv shell Hin. exact (proj1 (Forall_forall _ _) Hh _ Hin).
  - intros fd resolved Hex Hopen Hclose Hrun Hok Hpriv.
    split; [|split].
    + destruct (with_privileges_cases w
                  (dd_command (infile_of g) (ofile_of g) (bs_combo g)
                              (sync_checkbox g) (progress_checkbox g)))
        as [E|(prefix & Hin & E)]; rewrite E in Hpriv;
        [discriminate Hpriv|].
      injection Hpriv as <-. exists prefix.
      split; [exact Hin|reflexivity].
    + destruct (start_dd_success w g fd resolved Hex Hopen Hclose Hrun Hok
                  Hpriv) as (queries & text & Hq & Hexec).
      exists queries, text. split; [exact Hq|].
      unfold effects_of. rewrite Hexec. reflexivity.
    + intros s0 Hlive Hbtn <-.
      destruct (start_clicked_success w s0 fd resolved Hlive Hbtn Hex Hopen
                  Hclose Hrun Hok Hpriv) as (queries & text & Hq & ->).
      exists queries, text. split; [exact Hq|].
      rewrite first_step_of_new_worker.
      rewrite <- !app_assoc. reflexivity.
Qed.

Lemma copy_command_is_argument_list_witness :
  (exists prefix,
      In prefix privilege_prefixes
      /\ ["pkexec"; "dd"; "if=/home/u/a.img"; "of=/dev/sdb"; "bs=512k";
          "oflag=sync"; "status=progress"]
         = (prefix
            ++ ["dd"; ("if=" ++ infile_of g_ready)%string;
                ("of=" ++ ofile_of g_ready)%string;
                ("bs=" ++ bs_text (bs_combo g_ready))%string]
            ++ (if sync_checkbox g_ready then ["oflag=sync"] else [])
            ++ (if progress_checkbox g_ready
                then ["status=progress"] else []))%list)
  /\ (forall argv shell,
         In (Popen argv shell) (history s_running) ->
         shell = false /\ copy_command argv)
  /\ (exists queries text,
         Forall is_tool_query queries
         /\ effects_of (start_dd w_ok) g_ready
            = ([OsOpen (ofile_of g_ready) (Z.lor O_WRONLY O_EXCL);
                OsClose 3]
               ++ queries
               ++ [MsgWarning "Confirm Disk Write" text [Ok; Cancel] Cancel;
                   ThreadStart
                     ["pkexec"; "dd"; "if=/home/u/a.img"; "of=/dev/sdb";
                      "bs=512k"; "oflag=sync"; "status=progress"]])%list)
  /\ (exists queries text,
         Forall is_tool_query queries
         /\ history
              (step (ThreadStep 0)
                    (step (StartClicked w_ok)
                          (mkSys g_ready [] [] None)))
            = ([]
               ++ [OsOpen (ofile_of g_ready) (Z.lor O_WRONLY O_EXCL);
                   OsClose 3]
               ++ queries
               ++ [MsgWarning "Confirm Disk Write" text [Ok; Cancel] Cancel;
                   ThreadStart
                     ["pkexec"; "dd"; "if=/home/u/a.img"; "of=/dev/sdb";
                      "bs=512k"; "oflag=sync"; "status=progress"];
                   Popen
                     ["pkexec"; "dd"; "if=/home/u/a.img"; "of=/dev/sdb";
                      "bs=512k"; "oflag=sync"; "status=progress"]
                     false])%list).
Proof.
  destruct (copy_command_is_argument_list w_ok g_ready
              ["pkexec"; "dd"; "if=/home/u/a.img"; "of=/dev/sdb"; "bs=512k";
               "oflag=sync"; "status=progress"] s_running)
    as (Hcmd & _ & Hreach & Hcommit).
  assert (Hrun : forall argv,
             exists out, subprocess_run w_ok argv = inr out).
  { intros argv. cbn.
    destruct (list_string_eqb argv (lsblk_mount_query "/dev/sdb"));
      eexists; reflexivity. }
  assert (Hpriv : with_privileges w_ok
                    (dd_command (infile_of g_ready) (ofile_of g_ready)
                                (bs_combo g_ready) (sync_checkbox g_ready)
                                (progress_checkbox g_ready))
                  = Some ["pkexec"; "dd"; "if=/home/u/a.img"; "of=/dev/sdb";
                          "bs=512k"; "oflag=sync"; "status=progress"])
    by (vm_compute; reflexivity).
  assert (Hex : path_exists w_ok (infile_of g_ready) = true)
    by (vm_compute; reflexivity).
  assert (Hopen : os_open w_ok (ofile_of g_ready) (Z.lor O_WRONLY O_EXCL)
                  = inr 3) by reflexivity.
  assert (Hclose : os_close w_ok 3 = None) by reflexivity.
  assert (Hok : dialog_result [Ok; Cancel] Cancel (user_action w_ok) = Ok)
    by reflexivity.
  destruct (Hcommit 3 _ Hex Hopen Hclose Hrun Hok Hpriv)
    as (_ & Hlog & Hsys).
  split; [|split; [|split]].
  - apply Hcmd. vm_compute. do 4 right. left. reflexivity.
  - apply Hreach. exists w_ok. eexists. reflexivity.
  - exact Hlog.
  - apply (Hsys (mkSys g_ready [] [] None)); reflexivity.
Defined.

(** ** Substrings *)

Lemma prefix_app (x b : string) : String.prefix x (x ++ b) = true.
Proof.
  induction x as [|c x IH]; cbn.
  - destruct b; reflexivity.
  - destruct (ascii_dec c c) as [_|N]; [exact IH|contradiction].
Qed.

Lemma prefix_app_left (x a b : string) :
  String.prefix x a = true -> String.prefix x (a ++ b) = true.
Proof.
  revert a. induction x as [|c x IH]; intros a H.
  - destruct (a ++ b); reflexivity.
  - destruct a as [|d a]; cbn in *; [discriminate H|].
    destruct (ascii_dec c d); [apply IH, H|discriminate H].
Qed.

Lemma prefix_contains (x s : string) :
  String.prefix x s = true -> Py.contains x s = true.
Proof. intros H. destruct s; cbn [Py.contains]; rewrite H; reflexivity. Qed.

Lemma contains_here (x b : string) : Py.contains x (x ++ b) = true.
Proof. apply prefix_contains, prefix_app. Qed.

Lemma contains_self (x : string) : Py.contains x x = true.
Proof.
  apply prefix_contains.
  induction x as [|c x IH]; cbn; [reflexivity|].
  destruct (ascii_dec c c) as [_|N]; [exact IH|contradiction].
Qed.

Lemma contains_skip (x a t : string) :
  Py.contains x t = true -> Py.contains x (a ++ t) = true.
Proof.
  intros H. induction a as [|c a IH]; cbn [append]; [exact H|].
  cbn [Py.contains]. rewrite IH.
  destruct (String.prefix x (String c (a ++ t))); reflexivity.
Qed.

Lemma contains_left (x a b : string) :
  Py.contains x a = true -> Py.contains x (a ++ b) = true.
Proof.
  induction a as [|c a IH]; intros H.
  - destruct x; [|discriminate H].
    cbn [append]. destruct b; reflexivity.
  - cbn [Py.contains] in H. cbn [append Py.contains].
    destruct (String.prefix x (String c a)) eqn:E.
    + change (String c (a ++ b)) with (String c a ++ b)%string.
      rewrite (prefix_app_left _ _ b E). reflexivity.
    + rewrite (IH H).
      destruct (String.prefix x (String c (a ++ b))); reflexivity.
Qed.

(** Searches the appends of the goal for the place of the substring. *)
Ltac find_substring :=
  first
    [ apply contains_self
    | apply contains_here
    | lazymatch goal with
      | |- Py.contains _ (append _ _) = true =>
          first [ apply contains_left; find_substring
                | apply contains_skip; find_substring ]
      end ].

(** ** Confirmation *)

(** C8: when the layout query and, if [smartctl] is installed, the health
    query have answered, the confirmation shows one warning box whose text
    contains the target device, the whole layout text, the health text
    when there is one, and the source image; the box offers Ok and Cancel
    with Cancel as the default; and the gate answers [True] exactly when
    the operator chose Ok: activating the default and dismissing the box
    both give [False]. *)
Theorem confirmation_requires_explicit_ok :
  forall (w : World) (device image out : string) (health : option string)
         (s : St),
    subprocess_run w ["lsblk"; device] = inr out ->
    (which w "smartctl" = None /\ health = None
     \/ exists path info,
         which w "smartctl" = Some path
         /\ subprocess_run w ["smartctl"; "-i"; device] = inr info
         /\ health = Some (Py.strip info)) ->
    let message := warning_message device (Py.strip out) health image in
    let accepted :=
      StandardButton_eqb
        (dialog_result [Ok; Cancel] Cancel (user_action w)) Ok in
    (exists queries,
        Forall is_tool_query queries
        /\ confirm_destructive_write w device image s
           = Ret accepted
               (mkSt (gui s)
                     (log s ++ queries
                      ++ [MsgWarning "Confirm Disk Write" message
                                     [Ok; Cancel] Cancel])%list))
    /\ Py.contains device message = true
    /\ Py.contains (Py.strip out) message = true
    /\ (forall info, health = Some info -> info <> "" ->
        Py.contains info message = true)
    /\ Py.contains image message = true
    /\ (accepted = true <-> user_action w = Choose Ok)
    /\ dialog_result [Ok; Cancel] Cancel PressDefault = Cancel
    /\ dialog_result [Ok; Cancel] Cancel Dismiss = Cancel.
Proof.
  intros w device image out health s Hout Hhealth message accepted.
  split; [|split; [|split; [|split; [|split; [|split; [|split]]]]]].
  - unfold confirm_destructive_write, get_lsblk_info, get_smart_info,
      QMessageBox_warning, run_stdout, call, query, bind, ret, tell.
    rewrite Hout. cbn [gui log].
    destruct Hhealth as [[Hw ->]|(path & info & Hw & Hinfo & ->)];
      rewrite Hw; [|rewrite Hinfo]; cbn [gui log].
    + exists [SubprocessRun ["lsblk"; device]].
      split; [repeat constructor; eexists; reflexivity|].
      rewrite <- !app_assoc. reflexivity.
    + exists [SubprocessRun ["lsblk"; device];
              SubprocessRun ["smartctl"; "-i"; device]].
      split; [repeat constructor; eexists; reflexivity|].
      rewrite <- !app_assoc. reflexivity.
  - unfold message, warning_message. find_substring.
  - unfold message, warning_message. find_substring.
  - intros info -> Hne. unfold message, warning_message, smart_text.
    destruct info as [|c rest]; [contradiction|].
    cbn [Py.truthy]. find_substring.
  - unfold message, warning_message. find_substring.
  - unfold accepted. destruct (user_action w) as [[| |]| |]; cbn;
      split; intros H; try discriminate H; reflexivity.
  - reflexivity.
  - reflexivity.
Qed.

Lemma confirmation_requires_explicit_ok_witness :
  Py.contains "/dev/sdb"
    (warning_message "/dev/sdb" (Py.strip (nl ++ nl)) None "/home/u/a.img")
  = true.
Proof.
  refine (proj1 (proj2
    (confirmation_requires_explicit_ok w_ok "/dev/sdb" "/home/u/a.img"
       (nl ++ nl) None (mkSt g_ready []) _ _))).
  - reflexivity.
  - left. split; reflexivity.
Defined.

(** ** Device selection *)

Lemma device_path_strip (d : string) : device_path d -> Py.strip d <> "".
Proof.
  intros [name ->]. unfold Py.strip.
  change ("/dev/" ++ name) with (String "/" ("dev/" ++ name)).
  change (Py.lstrip (String "/" ("dev/" ++ name)))
    with (String "/" ("dev/" ++ name)).
  cbn [Py.rstrip].
  destruct (Py.rstrip ("dev/" ++ name)); discriminate.
Qed.






(** ** Commits while a copy is running *)

(** C4, as stated, fails: with one copy running, a second click on the
    start button is processed in full and starts a second worker, and then
    two subprocesses are running at once. *)
Lemma second_commit_not_rejected :
  running_count s_running = 1%nat
  /\ start_btn (widgets s_running) = true
  /\ spawned (effects_of (start_dd w_ok) (widgets s_running))
     = [["pkexec"; "dd"; "if=/home/u/a.img"; "of=/dev/sdb"; "bs=512k";
         "oflag=sync"; "status=progress"]]
  /\ running_count s_twice = 2%nat.
Proof. repeat split; reflexivity. Qed.

Lemma read_stderr_emits (lines : list string) :
  Forall (fun a => exists text, a = Emit (progress text)) (read_stderr lines).
Proof.
  induction lines as [|line rest IH]; cbn [read_stderr]; [constructor|].
  apply Forall_app. split; [|exact IH].
  destruct (Py.contains "bytes" line); repeat constructor.
  eexists; reflexivity.
Qed.

Lemma process_running_after_popen (lines : list string) (status : Z) :
  process_running (read_stderr lines ++ [DoWait status; Emit finished])
  = true.
Proof.
  pose proof (read_stderr_emits lines) as H.
  destruct H as [|a l [text ->] _]; [reflexivity|].
  cbn [app process_running existsb is_wait orb].
  rewrite existsb_app. cbn. apply orb_true_r.
Qed.

(** C4, amended: a commit request is handled the same way whether or not
    a copy is running; it is neither rejected nor queued.  In any state
    with the start button enabled, when the source exists, the exclusive
    open and the close succeed, the tool queries answer, the operator
    accepts and a privilege route exists, the click starts one more worker
    next to those already there, and once that worker has created its
    process there is one more subprocess running than before. *)
Theorem commit_while_running_starts_another :
  forall (s : Sys) (w : World) (fd : Z) (cmd : list string) (process : Proc),
    crashed s = None ->
    start_btn (widgets s) = true ->
    path_exists w (infile_of (widgets s)) = true ->
    os_open w (ofile_of (widgets s)) (Z.lor O_WRONLY O_EXCL) = inr fd ->
    os_close w fd = None ->
    (forall argv, exists out, subprocess_run w argv = inr out) ->
    dialog_result [Ok; Cancel] Cancel (user_action w) = Ok ->
    with_privileges w
      (dd_command (infile_of (widgets s)) (ofile_of (widgets s))
                  (bs_combo (widgets s)) (sync_checkbox (widgets s))
                  (progress_checkbox (widgets s))) = Some cmd ->
    popen w cmd = inr process ->
    let s' := step (StartClicked w) s in
    threads s' = (threads s ++ [DDWorker_run w cmd])%list
    /\ crashed s' = None
    /\ worker (widgets s') = Some cmd
    /\ running_count (step (ThreadStep (length (threads s))) s')
       = S (running_count s).
Proof.
  intros s w fd cmd process Hlive Hbtn Hex Hopen Hclose Hrun Hok Hpriv Hp s'.
  destruct (start_dd_success w (widgets s) fd cmd Hex Hopen Hclose Hrun Hok
              Hpriv) as (queries & text & Hq & Hexec).
  assert (Hs' : s' = mkSys
                  (set_worker cmd
                     (display_append ("Running: " ++ Py.join " " cmd ++ nl)
                        (widgets s)))
                  (history s
                   ++ [OsOpen (ofile_of (widgets s)) (Z.lor O_WRONLY O_EXCL);
                       OsClose fd]
                   ++ queries
                   ++ [MsgWarning "Confirm Disk Write" text [Ok; Cancel]
                                  Cancel;
                       ThreadStart cmd])
                  (threads s ++ [DDWorker_run w cmd]) None).
  { subst s'. unfold step. rewrite Hlive, Hbtn. unfold run_slot.
    rewrite Hexec. f_equal.
    rewrite !spawned_app, (spawned_queries _ Hq). reflexivity. }
  rewrite Hs'. cbn [threads crashed widgets worker set_worker].
  split; [reflexivity|]. split; [reflexivity|]. split; [reflexivity|].
  unfold step. cbn [crashed threads]. rewrite nth_error_snoc.
  unfold DDWorker_run. rewrite Hp. cbn [perform record widgets history
    threads crashed].
  unfold running_count, record. cbn [threads].
  rewrite replace_nth_snoc, filter_app, length_app. cbn [filter].
  rewrite process_running_after_popen. cbn [length]. lia.
Qed.

Lemma commit_while_running_starts_another_witness :
  running_count
    (step (ThreadStep (length (threads s_running)))
          (step (StartClicked w_ok) s_running))
  = S (running_count s_running).
Proof.
  refine (proj2 (proj2 (proj2
    (commit_while_running_starts_another s_running w_ok 3
       ["pkexec"; "dd"; "if=/home/u/a.img"; "of=/dev/sdb"; "bs=512k";
        "oflag=sync"; "status=progress"]
       (mkProc [progress_line] 0) _ _ _ _ _ _ _ _ _)))); try reflexivity.
  intros argv. cbn.
  destruct (list_string_eqb argv (lsblk_mount_query "/dev/sdb"));
    eexists; reflexivity.
Defined.

(** ** Cancellation *)








(** ** Outcome of a run and progress, evaluated *)

(** C1 (code at fault): the slot run at the end of a copy shows the same
    box whatever the exit status was; in particular the copy of [w_fail],
    which exits with status 1, is reported with the words "completed
    successfully". *)
Theorem failed_copy_reported_as_success :
  (forall (status : Z) (s : Sys),
      history (perform (Emit finished) (perform (DoWait status) s))
      = (history s
         ++ [ProcWait status;
             MsgInformation "Done" "DD completed successfully."])%list)
  /\ skipn 9 (history (run_inputs
                         [FileChosen w_fail "/home/u/a.img";
                          StartClicked w_fail;
                          ThreadStep 0; ThreadStep 0; ThreadStep 0]
                         (boot w_fail)))
     = [Popen ["pkexec"; "dd"; "if=/home/u/a.img"; "of=/dev/sdb"; "bs=512k";
               "oflag=sync"; "status=progress"] false;
        ProcWait 1;
        MsgInformation "Done" "DD completed successfully."].
Proof.
  split; [|reflexivity].
  intros status s. cbn. rewrite <- app_assoc. reflexivity.
Qed.

(** C5 (code at fault): a progress line only reaches the text display.
    [update_progress] appends the text and touches nothing else; after the
    line reporting 536870912 bytes of the 1073741824-byte image, the
    progress bar has never been set, the label still reads 0% with no
    estimate, and no sample has been kept. *)
Theorem progress_line_only_displayed :
  (forall (text : string) (g : Gui),
      exec (update_progress text) g = (display_append text g, [], None))
  /\ (let g := widgets (step (ThreadStep 0) s_running) in
      image_size_bytes g = 1073741824
      /\ last (progress_display g) ""
         = "536870912 bytes (537 MB, 512 MiB) copied, 5 s, 107 MB/s"
      /\ progress_bar g = None
      /\ eta_label g = "Progress: 0% - ETA: N/A"
      /\ last_bytes g = 0
      /\ last_update_time g = 0).
Proof.
  split; [intros text g; reflexivity|].
  repeat split; reflexivity.
Qed.

(** * Further properties of the code *)

(** ** The device list *)

Lemma exec_preserves (okE : Effect -> Prop) (okG : Gui -> Prop)
    (m : M unit) (g : Gui) :
  preserves okE okG m -> okG g ->
  Forall okE (effects_of m g) /\ okG (fst (fst (exec m g))).
Proof.
  intros Hm Hg.
  assert (Hs : st_ok okE okG (mkSt g [])) by (split; [constructor|exact Hg]).
  specialize (Hm _ Hs). unfold effects_of, exec.
  destruct (m (mkSt g [])) as [u s|e s]; exact Hm.
Qed.

Ltac keep_devs := preserve; try solve [exact I | intros ? H; exact H].

Section DeviceFields.

Variable P : list string * string -> Prop.

Let anyE : Effect -> Prop := fun _ => True.
Let okG : Gui -> Prop := fun g => P (devs g).

Lemma update_dev_capacity_devs (w : World) :
  preserves anyE okG (update_dev_capacity w).
Proof.
  unfold update_dev_capacity, get_mounted_partitions, run_stdout. keep_devs.
Qed.

Lemma unmount_device_devs (w : World) :
  preserves anyE okG (unmount_device w).
Proof.
  unfold unmount_device, run_stdout, QMessageBox_information. keep_devs.
Qed.

Lemma browse_file_devs (w : World) (file_path : string) :
  preserves anyE okG (browse_file w file_path).
Proof. unfold browse_file, show_file_size. keep_devs. Qed.

Lemma start_dd_devs (w : World) : preserves anyE okG (start_dd w).
Proof.
  unfold start_dd, exclusive_open_check, confirm_destructive_write,
    get_lsblk_info, get_smart_info, QMessageBox_warning,
    QMessageBox_critical, run_stdout.
  keep_devs.
Qed.

Lemma run_slot_devs (w : World) (m : M unit) (s : Sys) :
  preserves anyE okG m ->
  P (devs (widgets s)) -> P (devs (widgets (run_slot w m s))).
Proof.
  intros Hm Hs.
  destruct (exec_preserves anyE okG m (widgets s) Hm Hs) as [_ H].
  unfold run_slot. destruct (exec m (widgets s)) as [[g es] err]. exact H.
Qed.

(** A property of the entries and the current text that survives the
    choice of an entry survives every step. *)
Lemma step_devs (i : Input) (s : Sys) :
  (forall items cur d, P (items, cur) -> In d items -> P (items, d)) ->
  P (devs (widgets s)) -> P (devs (widgets (step i s))).
Proof.
  intros Hpick Hs. unfold step. destruct (crashed s); [exact Hs|].
  destruct i as [w p|text|b|b|b|w i|w|w|k]; try exact Hs.
  - apply run_slot_devs; [apply browse_file_devs|exact Hs].
  - destruct (nth_error (dev_items (widgets s)) i) as [d|] eqn:E;
      [|exact Hs].
    destruct (String.eqb d (dev_combo (widgets s))); [exact Hs|].
    apply run_slot_devs; [apply update_dev_capacity_devs|].
    apply (Hpick _ (dev_combo (widgets s))); [exact Hs|].
    exact (nth_error_In _ _ E).
  - destruct (unmount_btn (widgets s)); [|exact Hs].
    apply run_slot_devs; [apply unmount_device_devs|exact Hs].
  - destruct (start_btn (widgets s)); [|exact Hs].
    apply run_slot_devs; [apply start_dd_devs|exact Hs].
  - destruct (nth_error (threads s) k) as [[|a rest]|]; try exact Hs.
    destruct a as [cmd shell|[text|]|status|e]; exact Hs.
Qed.

Lemma run_inputs_devs (inputs : list Input) :
  (forall items cur d, P (items, cur) -> In d items -> P (items, d)) ->
  forall s, P (devs (widgets s)) -> P (devs (widgets (run_inputs inputs s))).
Proof.
  intros Hpick. induction inputs as [|i inputs IH]; intros s Hs; cbn;
    [exact Hs|].
  apply IH, step_devs; assumption.
Qed.

End DeviceFields.

(** What [__init__] leaves in the device combo box. *)
Lemma boot_devs (w : World) :
  devs (widgets (boot w)) = (device_entries w, hd "" (device_entries w)).
Proof.
  unfold boot, run_slot, exec, DDGui_init, refresh_devices.
  fold (device_entries w).
  set (P := fun p : list string * string =>
              p = (device_entries w, hd "" (device_entries w))).
  assert (Hup : forall g,
             P (devs g) ->
             P (devs (gui (final ((update_dev_capacity w ;;
                                   update_dev_capacity w) (mkSt g [])))))).
  { intros g Hg.
    assert (Hm : preserves (fun _ => True) (fun g => P (devs g))
                   (update_dev_capacity w ;; update_dev_capacity w))
      by (apply preserves_bind; [|intros _]; apply update_dev_capacity_devs).
    exact (proj2 (Hm (mkSt g []) (conj (Forall_nil _) Hg))). }
  unfold bind at 1. unfold modify at 1.
  destruct (is_root w); cbn [gui log widgets];
    unfold bind at 1; unfold modify at 1; cbn [gui log];
    destruct (device_entries w) as [|d l] eqn:E; cbn [ret hd].
  1, 3: reflexivity.
  all: unfold bind at 1; unfold modify at 1; cbn [gui log];
    match goal with
    | |- context [(?m ;; ?m') (mkSt ?g [])] =>
        specialize (Hup g eq_refl);
        destruct ((m ;; m') (mkSt g [])) as [u s|e s]
    end; exact Hup.
Qed.

Lemma last_char_None (s : string) : Py.last_char s = None -> s = "".
Proof.
  induction s as [|c s IH]; [reflexivity|].
  cbn. destruct s; [discriminate|]. intros H. discriminate (IH H).
Qed.

Lemma is_candidate_spec (name : string) :
  is_candidate name = true
  <-> Py.startswith name "sd" = true
      /\ exists c, Py.last_char name = Some c /\ Py.isdigit c = false.
Proof.
  unfold is_candidate. rewrite andb_true_iff, negb_true_iff. split.
  - intros [Hsd Hlast]. split; [exact Hsd|].
    destruct (Py.last_char name) as [c|] eqn:E.
    + exists c. split; [reflexivity|exact Hlast].
    + apply last_char_None in E. subst name. discriminate Hsd.
  - intros [Hsd (c & -> & Hc)]. split; assumption.
Qed.

(** X1: the device combo box is filled once, at start-up, with exactly
    the entries of [/dev] whose name starts with [sd] and does not end in
    a digit, each prefixed with [/dev/] and in the order of the listing;
    partitions ([sda1]) and disks of other families ([nvme0n1], [mmcblk0])
    are never offered.  The current entry is the first one, or the empty
    text when there is none. *)
Theorem only_whole_sd_disks_offered :
  forall (w : World),
    dev_items (widgets (boot w))
    = map (fun name => "/dev/" ++ name) (filter is_candidate (listdir_dev w))
    /\ (forall d,
           In d (dev_items (widgets (boot w)))
           <-> exists name,
               d = "/dev/" ++ name
               /\ In name (listdir_dev w)
               /\ Py.startswith name "sd" = true
               /\ exists c,
                   Py.last_char name = Some c /\ Py.isdigit c = false)
    /\ dev_combo (widgets (boot w)) = hd "" (dev_items (widgets (boot w))).
Proof.
  intros w. pose proof (boot_devs w) as H. unfold devs in H.
  injection H as Hitems Hcur. rewrite Hitems, Hcur.
  split; [reflexivity|]. split; [|reflexivity].
  intros d. unfold device_entries. rewrite in_map_iff. split.
  - intros (name & <- & Hin). apply filter_In in Hin.
    destruct Hin as [Hin Hc]. apply is_candidate_spec in Hc.
    exists name. split; [reflexivity|]. split; [exact Hin|exact Hc].
  - intros (name & -> & Hin & Hc). exists name. split; [reflexivity|].
    apply filter_In. split; [exact Hin|]. apply is_candidate_spec, Hc.
Qed.

(** X2: the device list is never refreshed after start-up.  Whatever the
    operator and the workers do, the entries stay those computed from the
    listing of [/dev] at start-up, and the current text is one of them,
    or is empty when there are none. *)
Theorem device_list_fixed_at_startup :
  forall (w0 : World) (inputs : list Input),
    dev_items (widgets (run_inputs inputs (boot w0))) = device_entries w0
    /\ (In (dev_combo (widgets (run_inputs inputs (boot w0))))
           (dev_items (widgets (run_inputs inputs (boot w0))))
        \/ (dev_items (widgets (run_inputs inputs (boot w0))) = []
            /\ dev_combo (widgets (run_inputs inputs (boot w0))) = "")).
Proof.
  intros w0 inputs.
  set (P := fun p : list string * string =>
              fst p = device_entries w0
              /\ (In (snd p) (fst p) \/ (fst p = [] /\ snd p = ""))).
  assert (H : P (devs (widgets (run_inputs inputs (boot w0))))).
  { apply run_inputs_devs.
    - intros items cur d [Hitems _] Hin. split; [exact Hitems|].
      left. exact Hin.
    - rewrite boot_devs. split; [reflexivity|]. cbn [fst snd].
      destruct (device_entries w0) as [|d l]; cbn [hd].
      + right. split; reflexivity.
      + left. left. reflexivity. }
  exact H.
Qed.

(** ** The mount check behind the two buttons *)

(** X3: [update_dev_capacity] on a blank device text does nothing at all.
    Otherwise it runs the size query and then, whatever that one answered
    or raised, the mount query: when the mount query raises, the
    exception escapes and both buttons stay as they were; when it
    answers, Start is enabled exactly when the stripped answer is empty
    and Unmount exactly when it is not. *)
Theorem update_dev_capacity_edges :
  forall (w : World) (g : Gui),
    (Py.strip (dev_combo g) = "" ->
     exec (update_dev_capacity w) g = (g, [], None))
    /\ (Py.strip (dev_combo g) <> "" ->
        (forall e,
            subprocess_run w (lsblk_mount_query (ofile_of g)) = inl e ->
            exec (update_dev_capacity w) g
            = (g, [SubprocessRun (lsblk_size_query (ofile_of g));
                   SubprocessRun (lsblk_mount_query (ofile_of g))], Some e))
        /\ (forall out,
               subprocess_run w (lsblk_mount_query (ofile_of g)) = inr out ->
               exec (update_dev_capacity w) g
               = (set_buttons (negb (Py.truthy (Py.strip out)))
                              (Py.truthy (Py.strip out)) g,
                  [SubprocessRun (lsblk_size_query (ofile_of g));
                   SubprocessRun (lsblk_mount_query (ofile_of g))], None))).
Proof.
  intros w g. unfold lsblk_mount_query, lsblk_size_query. split.
  - intros E. do 2 unfold_slot. rewrite E. destruct g; reflexivity.
  - intros Hne.
    assert (Ht : Py.truthy (Py.strip (dev_combo g)) = true)
      by (destruct (Py.strip (dev_combo g)); [contradiction|reflexivity]).
    split.
    + intros e He. do 2 unfold_slot. rewrite Ht. cbn [negb].
      destruct (subprocess_run w ["lsblk"; "-b"; "-dn"; "-o"; "SIZE"; _]);
        cbn [gui log app]; rewrite He; destruct g; reflexivity.
    + intros out Hout. do 2 unfold_slot. rewrite Ht. cbn [negb].
      destruct (subprocess_run w ["lsblk"; "-b"; "-dn"; "-o"; "SIZE"; _]);
        cbn [gui log app]; rewrite Hout; reflexivity.
Qed.

Lemma update_dev_capacity_edges_witness :
  exec (update_dev_capacity w_mounted) g_ready
  = (set_buttons false true g_ready,
     [SubprocessRun (lsblk_size_query "/dev/sdb");
      SubprocessRun (lsblk_mount_query "/dev/sdb")], None).
Proof.
  refine (proj2 (proj2 (update_dev_capacity_edges w_mounted g_ready) _)
            ("/mnt/usb" ++ nl) _).
  - discriminate.
  - reflexivity.
Defined.

Lemma update_dev_capacity_buttons (w : World) (s : St) :
  match update_dev_capacity w s with
  | Ret _ s' =>
      devs (gui s') = devs (gui s)
      /\ (if Py.truthy (Py.strip (dev_combo (gui s)))
          then start_btn (gui s') = negb (unmount_btn (gui s'))
          else controls (gui s') = controls (gui s))
  | Raise _ _ => True
  end.
Proof.
  unfold update_dev_capacity, get_mounted_partitions, run_stdout, call,
    query, try_except, bind, ret, raise, tell, read, modify.
  cbn [gui log].
  destruct (Py.truthy (Py.strip (dev_combo (gui s)))); cbn [negb];
    [|split; reflexivity].
  repeat split_match; try exact I; split; reflexivity.
Qed.

Lemma browse_file_controls (w : World) (file_path : string)
    (c : list string * string * bool * bool) :
  preserves (fun _ => True) (fun g => controls g = c)
            (browse_file w file_path).
Proof. unfold browse_file, show_file_size. keep_devs. Qed.

Lemma start_dd_controls (w : World) (c : list string * string * bool * bool) :
  preserves (fun _ => True) (fun g => controls g = c) (start_dd w).
Proof.
  unfold start_dd, exclusive_open_check, confirm_destructive_write,
    get_lsblk_info, get_smart_info, QMessageBox_warning,
    QMessageBox_critical, run_stdout.
  keep_devs.
Qed.

Lemma run_slot_controls (w : World) (m : M unit) (s : Sys) :
  preserves (fun _ => True) (fun g => controls g = controls (widgets s)) m ->
  controls (widgets (run_slot w m s)) = controls (widgets s).
Proof.
  intros Hm.
  destruct (exec_preserves _ _ m (widgets s) Hm eq_refl) as [_ H].
  unfold run_slot. destruct (exec m (widgets s)) as [[g es] err]. exact H.
Qed.

Lemma controls_consistent (g g' : Gui) :
  controls g' = controls g -> buttons_consistent g -> buttons_consistent g'.
Proof.
  unfold controls, buttons_consistent. intros E.
  injection E as -> _ -> ->. exact (fun H => H).
Qed.

Lemma truthy_strip_device (d : string) :
  device_path d -> Py.truthy (Py.strip d) = true.
Proof.
  intros H. apply device_path_strip in H.
  destruct (Py.strip d); [contradiction|reflexivity].
Qed.

(** After a mount check that returned, the buttons fit the entries, as
    long as the current text is an entry or there is none. *)
Lemma update_dev_capacity_consistent (w : World) (g : Gui)
    (es : list Effect) :
  devices_ok g ->
  In (dev_combo g) (dev_items g) \/ (dev_items g = [] /\ dev_combo g = "") ->
  buttons_consistent g ->
  match update_dev_capacity w (mkSt g es) with
  | Ret _ s' => buttons_consistent (gui s')
  | Raise _ _ => True
  end.
Proof.
  intros Hok Hcur Hb.
  pose proof (update_dev_capacity_buttons w (mkSt g es)) as H.
  destruct (update_dev_capacity w (mkSt g es)) as [u s'|e s']; [|exact I].
  cbn [gui] in H. destruct H as [Hdevs H].
  destruct Hcur as [Hin|[Hnil Hempty]].
  - rewrite (truthy_strip_device _
               (proj1 (Forall_forall _ _) Hok _ Hin)) in H.
    unfold buttons_consistent. injection Hdevs as -> _.
    destruct (dev_items g); [contradiction|exact H].
  - rewrite Hempty in H. cbn in H.
    exact (controls_consistent _ _ H Hb).
Qed.

Lemma unmount_device_consistent (w : World) (g : Gui) :
  devices_ok g ->
  In (dev_combo g) (dev_items g) \/ (dev_items g = [] /\ dev_combo g = "") ->
  buttons_consistent g ->
  snd (exec (unmount_device w) g) = None ->
  buttons_consistent (fst (fst (exec (unmount_device w) g))).
Proof.
  intros Hok Hcur Hb.
  unfold exec, unmount_device, run_stdout, QMessageBox_information, call,
    query, bind, ret, raise, tell, read.
  cbn [gui log app].
  destruct (subprocess_run w _) as [e|out]; cbn [gui log app];
    [discriminate|].
  match goal with
  | |- context [update_dev_capacity w (mkSt g ?es)] =>
      pose proof (update_dev_capacity_consistent w g es Hok Hcur Hb) as H;
      destruct (update_dev_capacity w (mkSt g es)) as [u s'|e s']
  end; [intros _; exact H|discriminate].
Qed.

(** Slots and button states, step by step. *)
Lemma step_consistent (i : Input) (s : Sys) :
  sys_ok s ->
  In (dev_combo (widgets s)) (dev_items (widgets s))
  \/ (dev_items (widgets s) = [] /\ dev_combo (widgets s) = "") ->
  (crashed s = None -> buttons_consistent (widgets s)) ->
  crashed (step i s) = None -> buttons_consistent (widgets (step i s)).
Proof.
  intros (_ & Hok & _) Hcur Hb. unfold step.
  destruct (crashed s) eqn:Hlive;
    [rewrite Hlive; discriminate|]. specialize (Hb eq_refl).
  destruct i as [w p|text|b|b|b|w i|w|w|k]; try (intros _; exact Hb).
  - intros _. refine (controls_consistent _ _ _ Hb).
    apply run_slot_controls, browse_file_controls.
  - destruct (nth_error (dev_items (widgets s)) i) as [d|] eqn:E;
      [|intros _; exact Hb].
    destruct (String.eqb d (dev_combo (widgets s))); [intros _; exact Hb|].
    unfold run_slot, exec. cbn [widgets set_widgets].
    pose proof (update_dev_capacity_consistent w
                  (set_devices (dev_items (widgets s)) d (widgets s)) []
                  Hok (or_introl (nth_error_In _ _ E))) as H.
    destruct (update_dev_capacity w _) as [u s'|e s'];
      cbn [crashed widgets]; [|discriminate].
    intros _. apply H. unfold buttons_consistent in *.
    cbn [dev_items start_btn unmount_btn set_devices]. exact Hb.
  - destruct (unmount_btn (widgets s)); [|intros _; exact Hb].
    pose proof (unmount_device_consistent w (widgets s) Hok Hcur Hb) as H.
    unfold run_slot.
    destruct (exec (unmount_device w) (widgets s)) as [[g es] err].
    cbn [crashed widgets fst snd] in *. exact H.
  - destruct (start_btn (widgets s)); [|intros _; exact Hb].
    intros _. refine (controls_consistent _ _ _ Hb).
    apply run_slot_controls, start_dd_controls.
  - destruct (nth_error (threads s) k) as [[|a rest]|];
      try (intros _; exact Hb).
    destruct a as [cmd shell|[text|]|status|e]; intros _; exact Hb.
Qed.

Lemma refresh_devices_buttons (w : World) (s : St) :
  match refresh_devices w s with
  | Ret _ s' =>
      match device_entries w with
      | [] => start_btn (gui s') = start_btn (gui s)
              /\ unmount_btn (gui s') = unmount_btn (gui s)
      | _ :: _ => start_btn (gui s') = negb (unmount_btn (gui s'))
      end
  | Raise _ _ => True
  end.
Proof.
  pose proof (candidate_paths_ok (filter is_candidate (listdir_dev w)))
    as Hpaths.
  unfold refresh_devices. fold (device_entries w) in *.
  unfold bind at 1. unfold modify at 1. cbn [gui log].
  destruct (device_entries w) as [|d l]; [split; reflexivity|].
  unfold bind at 1. unfold modify at 1. cbn [gui log]. unfold bind.
  match goal with
  | |- context [update_dev_capacity w ?s1] =>
      pose proof (update_dev_capacity_buttons w s1) as H1;
      destruct (update_dev_capacity w s1) as [u1 s2|e s2]; [|exact I]
  end.
  pose proof (update_dev_capacity_buttons w s2) as H2.
  destruct (update_dev_capacity w s2) as [u2 s3|e s3]; [|exact I].
  destruct H1 as [Hdevs _]. destruct H2 as [_ H2].
  unfold devs in Hdevs. cbn [gui dev_items dev_combo set_devices] in Hdevs.
  injection Hdevs as _ Hcur. rewrite Hcur in H2.
  rewrite (truthy_strip_device d) in H2; [exact H2|].
  inversion Hpaths; assumption.
Qed.

Lemma boot_consistent (w : World) :
  crashed (boot w) = None -> buttons_consistent (widgets (boot w)).
Proof.
  pose proof (boot_devs w) as Hd. unfold devs in Hd.
  injection Hd as Hitems _. unfold buttons_consistent. rewrite Hitems.
  clear Hitems.
  unfold boot, run_slot, exec, DDGui_init.
  cbn [widgets history threads]. unfold bind.
  assert (Hfirst : exists s0,
             (if is_root w
              then modify (set_window_title
                             "DD Wrapper GUI (running as root)")
              else ret tt) (mkSt init_gui [])
             = Ret tt s0
             /\ start_btn (gui s0) = true /\ unmount_btn (gui s0) = true).
  { destruct (is_root w); eexists; (split; [reflexivity|]);
      split; reflexivity. }
  destruct Hfirst as (s0 & -> & Hstart & Hunmount).
  pose proof (refresh_devices_buttons w s0) as H.
  destruct (refresh_devices w s0) as [u s'|e s'];
    cbn [crashed widgets]; [|discriminate].
  intros _. cbn [fst snd]. destruct (device_entries w).
  - destruct H as [H1 H2]. split; congruence.
  - exact H.
Qed.

(** X4: as long as no exception has escaped a slot or a worker, the two
    buttons fit the device list.  With no device to choose, both Start and
    Unmount are enabled, as [__init__] left them; with at least one,
    exactly one of the two is enabled, whatever the operator and the
    workers have done. *)
Theorem buttons_stay_consistent :
  forall (w0 : World) (inputs : list Input),
    crashed (run_inputs inputs (boot w0)) = None ->
    buttons_consistent (widgets (run_inputs inputs (boot w0))).
Proof.
  intros w0 inputs.
  assert (H : forall s,
             sys_ok s ->
             (In (dev_combo (widgets s)) (dev_items (widgets s))
              \/ (dev_items (widgets s) = [] /\ dev_combo (widgets s) = "")) ->
             (crashed s = None -> buttons_consistent (widgets s)) ->
             crashed (run_inputs inputs s) = None ->
             buttons_consistent (widgets (run_inputs inputs s))).
  { induction inputs as [|i inputs IH]; intros s Hok Hcur Hb; cbn;
      [exact Hb|].
    apply IH.
    - apply step_ok, Hok.
    - apply (step_devs
               (fun p => In (snd p) (fst p) \/ (fst p = [] /\ snd p = "")));
        [|exact Hcur].
      intros items cur d _ Hin. left. exact Hin.
    - apply step_consistent; assumption. }
  apply H.
  - apply boot_ok.
  - pose proof (boot_devs w0) as Hd. unfold devs in Hd.
    injection Hd as -> ->.
    destruct (device_entries w0); [right; split; reflexivity|].
    left. left. reflexivity.
  - apply boot_consistent.
Qed.

Lemma buttons_stay_consistent_witness :
  buttons_consistent
    (widgets (run_inputs [FileChosen w_ok "/home/u/a.img";
                          StartClicked w_ok; ThreadStep 0]
                         (boot w_ok))).
Proof.
  apply buttons_stay_consistent. vm_compute. reflexivity.
Defined.

(** ** What a commit does and does not do *)

(** X5: a commit is all or nothing for the window.  Either [start_dd]
    starts no worker and leaves every widget and attribute as it was, or
    it starts exactly one, as its last act and without an exception, and
    then the only changes are the line [Running: ...] appended to the text
    display and the worker stored in [self.worker]. *)
Theorem start_dd_all_or_nothing :
  forall (w : World) (g : Gui),
    (spawned (effects_of (start_dd w) g) = []
     /\ fst (fst (exec (start_dd w) g)) = g)
    \/ (exists cmd before,
           effects_of (start_dd w) g = (before ++ [ThreadStart cmd])%list
           /\ spawned before = []
           /\ snd (exec (start_dd w) g) = None
           /\ fst (fst (exec (start_dd w) g))
              = set_worker cmd
                  (display_append ("Running: " ++ Py.join " " cmd ++ nl) g)).
Proof.
  intros w g. unfold_slot.
  repeat split_match;
    first [ left; split; reflexivity
          | right;
            match goal with
            | |- context [ThreadStart ?c] => exists c
            end;
            match goal with
            | |- exists before, ?l = _ /\ _ => exists (removelast l)
            end;
            repeat split; reflexivity ].
Qed.

(** X6: the early exits of a commit.  With a source that does not exist
    the only thing [start_dd] does is show the error box: the device is
    not opened and no tool is run.  When the target was opened but closing
    the descriptor raises, the commit stops as for a failed open, with the
    permission box for [PermissionError] and the busy box otherwise. *)
Theorem start_dd_early_exits :
  forall (w : World) (g : Gui),
    (path_exists w (infile_of g) = false ->
     exec (start_dd w) g
     = (g, [MsgCritical "Error" "Invalid input file."], None))
    /\ (path_exists w (infile_of g) = true ->
        forall fd e,
          os_open w (ofile_of g) (Z.lor O_WRONLY O_EXCL) = inr fd ->
          os_close w fd = Some e ->
          exec (start_dd w) g
          = (g,
             [OsOpen (ofile_of g) (Z.lor O_WRONLY O_EXCL); OsClose fd;
              match e with
              | PermissionError => permission_box
              | _ => busy_box
              end],
             None)).
Proof.
  intros w g. split.
  - intros Hex. unfold_slot. rewrite Hex. destruct g; reflexivity.
  - intros Hex fd e Hopen Hclose. unfold_slot.
    rewrite Hex, Hopen. cbn [negb gui log app]. rewrite Hclose.
    destruct e; destruct g; reflexivity.
Qed.

Lemma start_dd_early_exits_witness :
  exec (start_dd w_ok) (widgets (boot w_ok))
  = (widgets (boot w_ok), [MsgCritical "Error" "Invalid input file."], None).
Proof.
  apply (proj1 (start_dd_early_exits w_ok (widgets (boot w_ok)))).
  vm_compute. reflexivity.
Defined.

(** X7: the descriptor of the probe is closed at once.  When the source
    exists and the exclusive open returns a descriptor, the very next call
    closes it, and nothing [start_dd] does afterwards (queries, boxes, the
    start of the worker) opens or closes a descriptor: the device is not
    held open while the operator decides or while the copy runs. *)
Theorem probe_descriptor_closed_at_once :
  forall (w : World) (g : Gui) (fd : Z),
    path_exists w (infile_of g) = true ->
    os_open w (ofile_of g) (Z.lor O_WRONLY O_EXCL) = inr fd ->
    exists rest,
      effects_of (start_dd w) g
      = OsOpen (ofile_of g) (Z.lor O_WRONLY O_EXCL) :: OsClose fd :: rest
      /\ existsb touches_descriptor rest = false.
Proof.
  intros w g fd Hex Hopen. unfold_slot.
  rewrite Hex, Hopen. cbn [negb gui log app].
  repeat split_match; eexists; split; reflexivity.
Qed.

Lemma probe_descriptor_closed_at_once_witness :
  exists rest,
    effects_of (start_dd w_ok) g_ready
    = OsOpen (ofile_of g_ready) (Z.lor O_WRONLY O_EXCL) :: OsClose 3 :: rest
    /\ existsb touches_descriptor rest = false.
Proof.
  apply probe_descriptor_closed_at_once; vm_compute; reflexivity.
Defined.

(** X8: the pair that was checked is the pair that is written.  Whenever
    [start_dd] starts a worker, the source named in the command is the
    path whose existence was checked, the target named in the command is
    the path that was opened exclusively, and both are the ones shown in
    the confirmation box. *)
Theorem checked_pair_is_written_pair :
  forall (w : World) (g : Gui) (cmd : list string),
    In (ThreadStart cmd) (effects_of (start_dd w) g) ->
    path_exists w (infile_of g) = true
    /\ In (OsOpen (ofile_of g) (Z.lor O_WRONLY O_EXCL))
          (effects_of (start_dd w) g)
    /\ (exists layout health,
           In (MsgWarning "Confirm Disk Write"
                 (warning_message (ofile_of g) layout health (infile_of g))
                 [Ok; Cancel] Cancel)
              (effects_of (start_dd w) g))
    /\ In ("if=" ++ infile_of g) cmd
    /\ In ("of=" ++ ofile_of g) cmd.
Proof.
  intros w g cmd H.
  pose proof (start_dd_spawns w g cmd H) as Hcmd.
  assert (Htokens : In ("if=" ++ infile_of g) cmd
                    /\ In ("of=" ++ ofile_of g) cmd).
  { destruct (with_privileges_cases w
                (dd_command (infile_of g) (ofile_of g) (bs_combo g)
                            (sync_checkbox g) (progress_checkbox g)))
      as [E|(prefix & _ & E)]; rewrite E in Hcmd; [discriminate Hcmd|].
    injection Hcmd as <-. unfold dd_command.
    split; apply in_or_app; right; cbn; auto. }
  revert H. unfold_slot.
  repeat split_match;
    intros H; cbn [In] in H;
    repeat (destruct H as [H|H]; [try discriminate H|]);
    try contradiction.
  all: split; [destruct (path_exists w _); [reflexivity|discriminate]|].
  all: split; [left; reflexivity|].
  all: split; [|exact Htokens].
  all: eexists; eexists; cbn [In]; auto 8.
Qed.

Lemma checked_pair_is_written_pair_witness :
  path_exists w_ok (infile_of g_ready) = true
  /\ In ("of=" ++ ofile_of g_ready)
        ["pkexec"; "dd"; "if=/home/u/a.img"; "of=/dev/sdb"; "bs=512k";
         "oflag=sync"; "status=progress"].
Proof.
  destruct (checked_pair_is_written_pair w_ok g_ready
              ["pkexec"; "dd"; "if=/home/u/a.img"; "of=/dev/sdb"; "bs=512k";
               "oflag=sync"; "status=progress"])
    as (Hex & _ & _ & _ & Hof).
  - vm_compute. do 4 right. left. reflexivity.
  - split; [exact Hex|exact Hof].
Defined.

(** X9: when an exception escapes [start_dd], it was raised by one of the
    tool queries of the confirmation, after the probe had succeeded: the
    source exists, the target was opened and closed, and then either
    [lsblk] on the target raised, or [lsblk] answered, [smartctl] is
    installed and [smartctl -i] on the target raised, and that query is the
    last call made.  The operator has been shown no box at all, nothing
    was started and the window is unchanged. *)
Theorem start_dd_escaping_exception :
  forall (w : World) (g : Gui) (e : OSError),
    snd (exec (start_dd w) g) = Some e ->
    path_exists w (infile_of g) = true
    /\ (exists fd,
           os_open w (ofile_of g) (Z.lor O_WRONLY O_EXCL) = inr fd
           /\ os_close w fd = None
           /\ ((subprocess_run w ["lsblk"; ofile_of g] = inl e
                /\ effects_of (start_dd w) g
                   = [OsOpen (ofile_of g) (Z.lor O_WRONLY O_EXCL);
                      OsClose fd;
                      SubprocessRun ["lsblk"; ofile_of g]])
               \/ ((exists layout,
                       subprocess_run w ["lsblk"; ofile_of g] = inr layout)
                   /\ which w "smartctl" <> None
                   /\ subprocess_run w ["smartctl"; "-i"; ofile_of g]
                      = inl e
                   /\ effects_of (start_dd w) g
                      = [OsOpen (ofile_of g) (Z.lor O_WRONLY O_EXCL);
                         OsClose fd;
                         SubprocessRun ["lsblk"; ofile_of g];
                         SubprocessRun ["smartctl"; "-i"; ofile_of g]])))
    /\ existsb is_box (effects_of (start_dd w) g) = false
    /\ spawned (effects_of (start_dd w) g) = []
    /\ fst (fst (exec (start_dd w) g)) = g.
Proof.
  intros w g e. unfold_slot.
  repeat split_match; intros H; try discriminate H; injection H as <-.
  all: split; [apply negb_false_iff; assumption|].
  all: split; [|repeat split; reflexivity].
  all: eexists; split; [reflexivity|]; split; [eassumption|].
  all: first
         [ left; split; reflexivity
         | right; split; [eexists; reflexivity|];
           split; [discriminate|]; split; reflexivity ].
Qed.

Lemma start_dd_escaping_exception_witness :
  existsb is_box
    (effects_of
       (start_dd (mkWorld 1000 (fun _ => None) (fun _ => true)
                          (fun _ => inr 0) [] (fun _ _ => inr 3)
                          (fun _ => None) (fun _ => inl FileNotFoundError)
                          (Choose Ok) (fun _ => inl FileNotFoundError)))
       g_ready)
  = false.
Proof.
  refine (proj1 (proj2 (proj2 (start_dd_escaping_exception _ g_ready
                                 FileNotFoundError _)))).
  vm_compute. reflexivity.
Defined.

(** ** The command as an encoding of the request *)

Lemma with_privileges_uniform (w : World) :
  (forall cmd, with_privileges w cmd = None)
  \/ exists prefix,
      In prefix privilege_prefixes
      /\ forall cmd, with_privileges w cmd = Some (prefix ++ cmd)%list.
Proof.
  unfold with_privileges, privilege_prefixes.
  destruct (is_root w); cbn [negb].
  - right. exists []. split; [cbn; auto|reflexivity].
  - destruct (has_sudo w);
      [right; exists ["sudo"]; split; [cbn; auto|reflexivity]|].
    destruct (has_doas w);
      [right; exists ["doas"]; split; [cbn; auto|reflexivity]|].
    destruct (has_pkexec w);
      [right; exists ["pkexec"]; split; [cbn; auto 6|reflexivity]|].
    left. reflexivity.
Qed.

(** X10: the argument list determines the request.  Two commits whose
    commands are equal have the same source, the same target, the same
    block size and the same two flags, with or without the privilege
    prefix of the machine: no path, however crafted, makes one request
    pass for another. *)
Theorem dd_command_injective :
  forall (w : World) (i1 o1 i2 o2 : string) (b1 b2 : BlockSize)
         (s1 p1 s2 p2 : bool),
    (dd_command i1 o1 b1 s1 p1 = dd_command i2 o2 b2 s2 p2
     \/ (with_privileges w (dd_command i1 o1 b1 s1 p1) <> None
         /\ with_privileges w (dd_command i1 o1 b1 s1 p1)
            = with_privileges w (dd_command i2 o2 b2 s2 p2))) ->
    i1 = i2 /\ o1 = o2 /\ b1 = b2 /\ s1 = s2 /\ p1 = p2.
Proof.
  intros w i1 o1 i2 o2 b1 b2 s1 p1 s2 p2 H.
  assert (E : dd_command i1 o1 b1 s1 p1 = dd_command i2 o2 b2 s2 p2).
  { destruct H as [E|[Hsome E]]; [exact E|].
    destruct (with_privileges_uniform w) as [Hnone|(prefix & _ & Hp)].
    - rewrite Hnone in Hsome. contradiction.
    - rewrite !Hp in E. injection E as E.
      exact (app_inv_head _ _ _ E). }
  unfold dd_command in E. cbn [app] in E.
  injection E as Hi Ho Hb Hflags.
  repeat split; try assumption.
  - destruct b1, b2; try reflexivity; discriminate Hb.
  - destruct s1, p1, s2, p2; try reflexivity; discriminate Hflags.
  - destruct s1, p1, s2, p2; try reflexivity; discriminate Hflags.
Qed.

Lemma dd_command_injective_witness :
  "a.img" = "a.img" /\ "/dev/sdb" = "/dev/sdb" /\ bs1M = bs1M
  /\ true = true /\ false = false.
Proof.
  apply (dd_command_injective w_ok "a.img" "/dev/sdb" "a.img" "/dev/sdb"
           bs1M bs1M true false true false).
  left. reflexivity.
Defined.

(** ** Stripping *)

Lemma rstrip_idempotent (s : string) : Py.rstrip (Py.rstrip s) = Py.rstrip s.
Proof.
  induction s as [|c s IH]; [reflexivity|].
  cbn [Py.rstrip]. destruct (Py.rstrip s) as [|d r] eqn:E.
  - destruct (Py.isspace c) eqn:Hc; [reflexivity|].
    cbn [Py.rstrip]. rewrite Hc. reflexivity.
  - change (Py.rstrip (String c (String d r)))
      with (match Py.rstrip (String d r) with
            | EmptyString =>
                if Py.isspace c then EmptyString else String c EmptyString
            | String _ _ as r' => String c r'
            end).
    rewrite IH. reflexivity.
Qed.

Lemma lstrip_head (s : string) :
  Py.lstrip s = ""
  \/ exists c r, Py.lstrip s = String c r /\ Py.isspace c = false.
Proof.
  induction s as [|c s IH]; [left; reflexivity|].
  cbn [Py.lstrip]. destruct (Py.isspace c) eqn:Hc; [exact IH|].
  right. exists c, s. split; [reflexivity|exact Hc].
Qed.

Lemma strip_trimmed (s : string) :
  Py.lstrip (Py.strip s) = Py.strip s /\ Py.rstrip (Py.strip s) = Py.strip s.
Proof.
  unfold Py.strip. split; [|apply rstrip_idempotent].
  destruct (lstrip_head s) as [->|(c & r & -> & Hc)]; [reflexivity|].
  cbn [Py.rstrip]. rewrite Hc.
  destruct (Py.rstrip r); cbn [Py.lstrip]; rewrite Hc; reflexivity.
Qed.

Lemma contains_empty (x : string) : Py.contains x "" = true -> x = "".
Proof. destruct x; [reflexivity|discriminate]. Qed.

Lemma contains_lstrip (c : ascii) (x s : string) :
  Py.isspace c = false ->
  Py.contains (String c x) s = true ->
  Py.contains (String c x) (Py.lstrip s) = true.
Proof.
  intros Hc. induction s as [|d s IH]; intros H; [exact H|].
  cbn [Py.lstrip]. destruct (Py.isspace d) eqn:Hd; [|exact H].
  apply IH. cbn [Py.contains String.prefix] in H.
  destruct (ascii_dec c d) as [->|_]; [congruence|exact H].
Qed.

Lemma prefix_rstrip (x s : string) :
  no_space x = true -> x <> "" ->
  String.prefix x s = true -> String.prefix x (Py.rstrip s) = true.
Proof.
  revert s. induction x as [|c x IH]; intros s Hns Hne H; [contradiction|].
  destruct s as [|d s]; [discriminate H|].
  cbn [String.prefix] in H. destruct (ascii_dec c d) as [<-|_];
    [|discriminate H].
  cbn [no_space] in Hns. apply andb_true_iff in Hns.
  destruct Hns as [Hc Hns]. apply negb_true_iff in Hc.
  cbn [Py.rstrip]. rewrite Hc.
  destruct x as [|c' x].
  - destruct (Py.rstrip s); cbn [String.prefix];
      destruct (ascii_dec c c); try contradiction; reflexivity.
  - assert (Hr : String.prefix (String c' x) (Py.rstrip s) = true)
      by (apply IH; [exact Hns|discriminate|exact H]).
    destruct (Py.rstrip s); [discriminate Hr|].
    cbn [String.prefix]. destruct (ascii_dec c c); [exact Hr|contradiction].
Qed.

Lemma contains_rstrip (x s : string) :
  no_space x = true -> x <> "" ->
  Py.contains x s = true -> Py.contains x (Py.rstrip s) = true.
Proof.
  intros Hns Hne. induction s as [|d s IH]; intros H.
  - apply contains_empty in H. contradiction.
  - cbn [Py.contains] in H.
    destruct (String.prefix x (String d s)) eqn:Hp.
    + apply prefix_contains, prefix_rstrip; assumption.
    + specialize (IH H). cbn [Py.rstrip].
      destruct (Py.rstrip s) as [|e r] eqn:E.
      * apply contains_empty in IH. contradiction.
      * cbn [Py.contains]. cbn [Py.contains] in IH. rewrite IH.
        destruct (String.prefix x (String d (String e r))); reflexivity.
Qed.

Lemma contains_strip (x s : string) :
  no_space x = true -> x <> "" ->
  Py.contains x s = true -> Py.contains x (Py.strip s) = true.
Proof.
  intros Hns Hne H. unfold Py.strip. apply contains_rstrip; try assumption.
  destruct x as [|c x]; [contradiction|].
  cbn [no_space] in Hns. apply andb_true_iff in Hns.
  apply contains_lstrip; [apply negb_true_iff, (proj1 Hns)|exact H].
Qed.

(** ** What a worker reports *)

Lemma read_stderr_map_filter (lines : list string) :
  read_stderr lines
  = map (fun line => Emit (progress (Py.strip line)))
        (filter (Py.contains "bytes") lines).
Proof.
  induction lines as [|line rest IH]; [reflexivity|].
  cbn [read_stderr filter].
  destruct (Py.contains "bytes" line); cbn [map app]; rewrite IH;
    reflexivity.
Qed.

(** X11: the progress signals of a run are exactly the lines of the
    diagnostic stream in which ["bytes"] occurs, in the order of the
    stream, each stripped; lines without it give no signal.  Every text
    signalled still contains ["bytes"] and carries no whitespace at either
    end.  The signals come after [Popen] and before the wait, and when
    [Popen] raises there is no signal at all, not even [finished]: the
    exception leaves [run] right after the call. *)
Theorem worker_signals_bytes_lines_in_order :
  forall (w : World) (cmd : list string),
    match popen w cmd with
    | inl e => DDWorker_run w cmd = [DoPopen cmd false; Uncaught e]
    | inr process =>
        DDWorker_run w cmd
        = (DoPopen cmd false
           :: map (fun line => Emit (progress (Py.strip line)))
                  (filter (Py.contains "bytes") (stderr process))
           ++ [DoWait (returncode process); Emit finished])%list
    end
    /\ (forall text,
           In (Emit (progress text)) (DDWorker_run w cmd) ->
           Py.contains "bytes" text = true
           /\ Py.lstrip text = text /\ Py.rstrip text = text).
Proof.
  intros w cmd. unfold DDWorker_run.
  destruct (popen w cmd) as [e|process].
  - split; [reflexivity|]. intros text [H|[H|[]]]; discriminate H.
  - rewrite read_stderr_map_filter. split; [reflexivity|].
    intros text [H|H]; [discriminate H|].
    apply in_app_or in H. destruct H as [H|[H|[H|[]]]]; try discriminate H.
    apply in_map_iff in H. destruct H as (line & E & Hin).
    injection E as <-. apply filter_In in Hin. destruct Hin as [_ Hb].
    split; [apply contains_strip; [reflexivity|discriminate|exact Hb]|].
    apply strip_trimmed.
Qed.

(** ** A worker left to run *)

Lemma nth_error_replace_nth {A} (k : nat) (x y : A) (l : list A) :
  nth_error l k = Some x -> nth_error (replace_nth k y l) k = Some y.
Proof.
  revert k. induction l as [|h t IH]; intros k H.
  - destruct k; discriminate H.
  - destruct k; [reflexivity|]. cbn. apply IH. exact H.
Qed.

Lemma replace_nth_twice {A} (k : nat) (x y : A) (l : list A) :
  replace_nth k y (replace_nth k x l) = replace_nth k y l.
Proof.
  revert k. induction l as [|h t IH]; intros k.
  - destruct k; reflexivity.
  - destruct k; [reflexivity|]. cbn. rewrite IH. reflexivity.
Qed.

Lemma replace_nth_same {A} (k : nat) (x : A) (l : list A) :
  nth_error l k = Some x -> replace_nth k x l = l.
Proof.
  revert k. induction l as [|h t IH]; intros k H.
  - destruct k; reflexivity.
  - destruct k; cbn in *; [congruence|]. rewrite (IH _ H). reflexivity.
Qed.

Lemma perform_facts (a : Action) (s : Sys) :
  crashed s = None ->
  crashed (perform a s)
  = match a with Uncaught e => Some e | _ => None end
  /\ threads (perform a s) = threads s
  /\ history (perform a s) = (history s ++ action_trace a)%list
  /\ progress_display (widgets (perform a s))
     = (progress_display (widgets s) ++ action_texts a)%list
  /\ controls (widgets (perform a s)) = controls (widgets s).
Proof.
  intros Hlive.
  destruct a as [cmd shell|[text|]|status|e]; cbn;
    rewrite ?app_nil_r; repeat split; try reflexivity; exact Hlive.
Qed.

Lemma step_thread (k : nat) (a : Action) (rest : list Action) (s : Sys) :
  crashed s = None ->
  nth_error (threads s) k = Some (a :: rest) ->
  step (ThreadStep k) s
  = perform a (mkSys (widgets s) (history s)
                     (replace_nth k rest (threads s)) (crashed s)).
Proof. intros Hlive Hk. unfold step. rewrite Hlive, Hk. reflexivity. Qed.

(** A worker whose remaining actions raise nothing and that is given as
    many steps in a row as it has actions left performs them all, in
    order. *)
Lemma run_thread_all (todo : list Action) :
  forall (s : Sys) (k : nat),
    Forall (fun a => forall e, a <> Uncaught e) todo ->
    crashed s = None ->
    nth_error (threads s) k = Some todo ->
    crashed (run_thread k (length todo) s) = None
    /\ threads (run_thread k (length todo) s) = replace_nth k [] (threads s)
    /\ history (run_thread k (length todo) s)
       = (history s ++ flat_map action_trace todo)%list
    /\ progress_display (widgets (run_thread k (length todo) s))
       = (progress_display (widgets s) ++ flat_map action_texts todo)%list
    /\ controls (widgets (run_thread k (length todo) s))
       = controls (widgets s).
Proof.
  induction todo as [|a rest IH]; intros s k Hquiet Hlive Hk.
  - cbn. rewrite !app_nil_r. rewrite (replace_nth_same _ _ _ Hk).
    repeat split; try reflexivity. exact Hlive.
  - change (run_thread k (length (a :: rest)) s)
      with (run_thread k (length rest) (step (ThreadStep k) s)).
    rewrite (step_thread k a rest s Hlive Hk).
    inversion Hquiet as [|? ? Ha Hrest]; subst.
    destruct (perform_facts a
                (mkSys (widgets s) (history s)
                       (replace_nth k rest (threads s)) (crashed s)) Hlive)
      as (Hc & Ht & Hh & Hd & Hctl).
    assert (Hc' : crashed
                    (perform a
                       (mkSys (widgets s) (history s)
                              (replace_nth k rest (threads s)) (crashed s)))
                  = None)
      by (rewrite Hc; destruct a; try reflexivity;
          exfalso; exact (Ha _ eq_refl)).
    cbn [widgets history threads crashed] in Ht, Hh, Hd, Hctl.
    destruct (IH _ k Hrest Hc') as (Hc'' & Ht' & Hh' & Hd' & Hctl').
    { rewrite Ht. exact (nth_error_replace_nth _ _ _ _ Hk). }
    rewrite Hc'', Ht', Hh', Hd', Hctl', Ht, Hh, Hd, Hctl.
    rewrite replace_nth_twice. cbn [flat_map]. rewrite <- !app_assoc.
    repeat split; reflexivity.
Qed.

Lemma progress_actions_trace (texts : list string) :
  flat_map action_trace
    (map (fun text => Emit (progress text)) texts) = []
  /\ flat_map action_texts
       (map (fun text => Emit (progress text)) texts) = texts.
Proof.
  induction texts as [|t texts [IH1 IH2]]; [split; reflexivity|].
  cbn [map flat_map]. rewrite IH1, IH2. split; reflexivity.
Qed.

Lemma successful_run_raises_nothing (cmd : list string) (process : Proc) :
  Forall (fun a => forall e, a <> Uncaught e)
         (DoPopen cmd false
          :: read_stderr (stderr process)
             ++ [DoWait (returncode process); Emit finished]).
Proof.
  constructor; [discriminate|]. apply Forall_app. split.
  - apply Forall_forall. intros a Hin e ->.
    pose proof (proj1 (Forall_forall _ _)
                  (read_stderr_emits (stderr process)) _ Hin) as [text E].
    discriminate E.
  - repeat constructor; discriminate.
Qed.

(** X12: a worker left to run for as many steps as [run] has actions goes
    through [run] to its end.  If [Popen] raised, the call is the only
    trace, nothing is displayed and no box is shown; the exception then
    leaves [run], the application is gone and no further input has any
    effect.  Otherwise the stripped ["bytes"] lines of the stream are
    appended to the text display in stream order, the wait is logged with
    the exit status, the completion box is shown once, after the wait,
    and the application goes on.  The buttons and the device selection
    are not touched. *)
Theorem worker_left_to_run :
  forall (s : Sys) (k : nat) (w : World) (cmd : list string),
    crashed s = None ->
    nth_error (threads s) k = Some (DDWorker_run w cmd) ->
    nth_error (threads (run_thread k (length (DDWorker_run w cmd)) s)) k
    = Some []
    /\ controls (widgets (run_thread k (length (DDWorker_run w cmd)) s))
       = controls (widgets s)
    /\ match popen w cmd with
       | inl e =>
           crashed (run_thread k (length (DDWorker_run w cmd)) s) = Some e
           /\ history (run_thread k (length (DDWorker_run w cmd)) s)
              = (history s ++ [Popen cmd false])%list
           /\ progress_display
                (widgets (run_thread k (length (DDWorker_run w cmd)) s))
              = progress_display (widgets s)
           /\ (forall i,
                  step i (run_thread k (length (DDWorker_run w cmd)) s)
                  = run_thread k (length (DDWorker_run w cmd)) s)
       | inr process =>
           crashed (run_thread k (length (DDWorker_run w cmd)) s) = None
           /\ history (run_thread k (length (DDWorker_run w cmd)) s)
              = (history s
                 ++ [Popen cmd false; ProcWait (returncode process);
                     done_box])%list
           /\ progress_display
                (widgets (run_thread k (length (DDWorker_run w cmd)) s))
              = (progress_display (widgets s)
                 ++ map Py.strip
                        (filter (Py.contains "bytes") (stderr process))
                )%list
       end.
Proof.
  intros s k w cmd Hlive Hk. unfold DDWorker_run in *.
  destruct (popen w cmd) as [e|process].
  - change (run_thread k (length [DoPopen cmd false; Uncaught e]) s)
      with (step (ThreadStep k) (step (ThreadStep k) s)).
    rewrite (step_thread k _ _ s Hlive Hk). cbn [perform].
    rewrite (step_thread k (Uncaught e) []);
      [|exact Hlive|exact (nth_error_replace_nth _ _ _ _ Hk)].
    cbn [perform record widgets history threads crashed].
    rewrite replace_nth_twice.
    split; [exact (nth_error_replace_nth _ _ _ _ Hk)|].
    repeat split; reflexivity.
  - destruct (run_thread_all _ s k
                (successful_run_raises_nothing cmd process) Hlive Hk)
      as (Hc & Ht & Hh & Hd & Hctl).
    split; [rewrite Ht; exact (nth_error_replace_nth _ _ _ _ Hk)|].
    split; [exact Hctl|]. split; [exact Hc|].
    rewrite Hh, Hd, read_stderr_map_filter.
    rewrite <- (map_map Py.strip (fun text => Emit (progress text))).
    destruct (progress_actions_trace
                (map Py.strip
                     (filter (Py.contains "bytes") (stderr process))))
      as [H1 H2].
    cbn [flat_map]. rewrite !flat_map_app, H1, H2.
    cbn. rewrite app_nil_r. split; reflexivity.
Qed.

Lemma worker_left_to_run_witness :
  crashed
    (run_thread 0
       (length (DDWorker_run w_ok
                  ["pkexec"; "dd"; "if=/home/u/a.img"; "of=/dev/sdb";
                   "bs=512k"; "oflag=sync"; "status=progress"]))
       (run_inputs [FileChosen w_ok "/home/u/a.img"; StartClicked w_ok]
                   (boot w_ok)))
  = None
  /\ crashed
       (run_thread 0
          (length (DDWorker_run w_no_dd
                     ["pkexec"; "dd"; "if=/home/u/a.img"; "of=/dev/sdb";
                      "bs=512k"; "oflag=sync"; "status=progress"]))
          (run_inputs [FileChosen w_no_dd "/home/u/a.img";
                       StartClicked w_no_dd]
                      (boot w_no_dd)))
     = Some FileNotFoundError.
Proof.
  split.
  - refine (proj1 (proj2 (proj2 (worker_left_to_run _ 0 w_ok _ _ _))));
      vm_compute; reflexivity.
  - refine (proj1 (proj2 (proj2 (worker_left_to_run _ 0 w_no_dd _ _ _))));
      vm_compute; reflexivity.
Defined.

(** ** Widgets the slots leave alone *)

Section Frame.

Variable okG : Gui -> Prop.

Hypothesis keep_title : forall t g, okG g -> okG (set_window_title t g).
Hypothesis keep_size : forall n g, okG g -> okG (set_image_size_bytes n g).
Hypothesis keep_input : forall t g, okG g -> okG (set_input_edit t g).
Hypothesis keep_bs : forall b g, okG g -> okG (set_bs_combo b g).
Hypothesis keep_display : forall t g, okG g -> okG (display_append t g).
Hypothesis keep_devices :
  forall items cur g, okG g -> okG (set_devices items cur g).
Hypothesis keep_buttons : forall a b g, okG g -> okG (set_buttons a b g).
Hypothesis keep_checkboxes :
  forall a b g, okG g -> okG (set_checkboxes a b g).
Hypothesis keep_worker : forall cmd g, okG g -> okG (set_worker cmd g).

Let anyE : Effect -> Prop := fun _ => True.

Ltac frame := preserve; try solve [exact I | intros; auto].

Lemma update_dev_capacity_frame (w : World) :
  preserves anyE okG (update_dev_capacity w).
Proof.
  unfold update_dev_capacity, get_mounted_partitions, run_stdout. frame.
Qed.

Lemma unmount_device_frame (w : World) :
  preserves anyE okG (unmount_device w).
Proof.
  unfold unmount_device, run_stdout, QMessageBox_information. frame.
Qed.

Lemma browse_file_frame (w : World) (file_path : string) :
  preserves anyE okG (browse_file w file_path).
Proof. unfold browse_file, show_file_size. frame. Qed.

Lemma start_dd_frame (w : World) : preserves anyE okG (start_dd w).
Proof.
  unfold start_dd, exclusive_open_check, confirm_destructive_write,
    get_lsblk_info, get_smart_info, QMessageBox_warning,
    QMessageBox_critical, run_stdout.
  frame.
Qed.

Lemma update_progress_frame (text : string) :
  preserves anyE okG (update_progress text).
Proof. unfold update_progress. frame. Qed.

Lemma DDGui_init_frame (w : World) : preserves anyE okG (DDGui_init w).
Proof. unfold DDGui_init, refresh_devices. frame. Qed.

Lemma run_slot_frame (w : World) (m : M unit) (s : Sys) :
  preserves anyE okG m -> okG (widgets s) -> okG (widgets (run_slot w m s)).
Proof.
  intros Hm Hs.
  destruct (exec_preserves anyE okG m (widgets s) Hm Hs) as [_ H].
  unfold run_slot. destruct (exec m (widgets s)) as [[g es] err]. exact H.
Qed.

Lemma step_frame (i : Input) (s : Sys) :
  okG (widgets s) -> okG (widgets (step i s)).
Proof.
  intros Hs. unfold step. destruct (crashed s); [exact Hs|].
  destruct i as [w p|text|b|b|b|w i|w|w|k]; cbn [set_widgets widgets];
    auto.
  - apply run_slot_frame; [apply browse_file_frame|exact Hs].
  - destruct (nth_error (dev_items (widgets s)) i) as [d|]; [|exact Hs].
    destruct (String.eqb d (dev_combo (widgets s))); [exact Hs|].
    apply run_slot_frame; [apply update_dev_capacity_frame|].
    cbn [set_widgets widgets]. auto.
  - destruct (unmount_btn (widgets s)); [|exact Hs].
    apply run_slot_frame; [apply unmount_device_frame|exact Hs].
  - destruct (start_btn (widgets s)); [|exact Hs].
    apply run_slot_frame; [apply start_dd_frame|exact Hs].
  - destruct (nth_error (threads s) k) as [[|a rest]|]; try exact Hs.
    destruct a as [cmd shell|[text|]|status|e]; cbn [perform]; try exact Hs.
    apply run_slot_frame; [apply update_progress_frame|exact Hs].
Qed.

Lemma run_inputs_frame (inputs : list Input) :
  forall s, okG (widgets s) -> okG (widgets (run_inputs inputs s)).
Proof.
  induction inputs as [|i inputs IH]; intros s Hs; cbn; [exact Hs|].
  apply IH, step_frame, Hs.
Qed.

Lemma boot_frame (w : World) : okG init_gui -> okG (widgets (boot w)).
Proof.
  intros H. apply run_slot_frame; [apply DDGui_init_frame|exact H].
Qed.

End Frame.

(** X13: the text display only grows.  Whatever happens next, the
    paragraphs already in [progress_display] stay where they are, in the
    same order; the program never clears or rewrites the display. *)
Theorem progress_display_only_grows :
  forall (inputs : list Input) (s : Sys),
    exists added,
      progress_display (widgets (run_inputs inputs s))
      = (progress_display (widgets s) ++ added)%list.
Proof.
  intros inputs s.
  apply (run_inputs_frame
           (fun g => exists added,
                progress_display g
                = (progress_display (widgets s) ++ added)%list));
    try (intros; assumption).
  - intros t g [added H]. exists (added ++ [t])%list.
    cbn [progress_display display_append]. rewrite H, app_assoc.
    reflexivity.
  - exists []. rewrite app_nil_r. reflexivity.
Qed.

(** X14: the progress bar, the progress label and the two sample
    attributes are never written.  In every state the application can
    reach the bar has not been given a value, the label reads
    [Progress: 0% - ETA: N/A], and [last_bytes] and [last_update_time]
    are 0, however many progress lines the workers have reported. *)
Theorem progress_widgets_never_updated :
  forall (w0 : World) (inputs : list Input),
    progress_state (widgets (run_inputs inputs (boot w0)))
    = (None, "Progress: 0% - ETA: N/A", 0, 0).
Proof.
  intros w0 inputs.
  apply (run_inputs_frame
           (fun g => progress_state g
                     = (None, "Progress: 0% - ETA: N/A", 0, 0)));
    try (intros; assumption).
  apply (boot_frame
           (fun g => progress_state g
                     = (None, "Progress: 0% - ETA: N/A", 0, 0)));
    try (intros; assumption).
  reflexivity.
Qed.

(** ** Where workers come from *)

Lemma start_dd_spawns_at_most_one (w : World) (g : Gui) :
  (length (spawned (effects_of (start_dd w) g)) <= 1)%nat.
Proof.
  unfold_slot. repeat split_match; cbn; lia.
Qed.

Ltac no_spawn := preserve; try solve [exact I | reflexivity].

Lemma quiet_slot_spawns_nothing (m : M unit) (g : Gui) :
  preserves (fun e => spawned [e] = []) (fun _ => True) m ->
  spawned (effects_of m g) = [].
Proof.
  intros Hm.
  destruct (exec_preserves _ _ m g Hm I) as [H _].
  induction H as [|e es He _ IH]; [reflexivity|].
  change (e :: es) with ([e] ++ es)%list.
  rewrite spawned_app, He, IH. reflexivity.
Qed.

Lemma replace_nth_length {A} (k : nat) (x : A) (l : list A) :
  length (replace_nth k x l) = length l.
Proof.
  revert k. induction l as [|h t IH]; intros k; [destruct k; reflexivity|].
  destruct k; cbn; [reflexivity|]. rewrite IH. reflexivity.
Qed.

Lemma run_slot_threads (w : World) (m : M unit) (s : Sys) :
  length (threads (run_slot w m s))
  = (length (threads s) + length (spawned (effects_of m (widgets s))))%nat.
Proof.
  unfold run_slot, effects_of.
  destruct (exec m (widgets s)) as [[g es] err]. cbn.
  rewrite length_app, length_map. reflexivity.
Qed.

Lemma step_threads (i : Input) (s : Sys) :
  (length (threads (step i s))
   <= length (threads s) + (if is_start i then 1 else 0))%nat.
Proof.
  unfold step. destruct (crashed s); [apply Nat.le_add_r|].
  destruct i as [w p|text|b|b|b|w i|w|w|k];
    cbn [is_start set_widgets threads]; try lia.
  - rewrite run_slot_threads, quiet_slot_spawns_nothing; [cbn; lia|].
    unfold browse_file, show_file_size. no_spawn.
  - destruct (nth_error (dev_items (widgets s)) i) as [d|]; [|lia].
    destruct (String.eqb d (dev_combo (widgets s))); [lia|].
    rewrite run_slot_threads, quiet_slot_spawns_nothing; [cbn; lia|].
    unfold update_dev_capacity, get_mounted_partitions, run_stdout.
    no_spawn.
  - destruct (unmount_btn (widgets s)); [|lia].
    rewrite run_slot_threads, quiet_slot_spawns_nothing; [cbn; lia|].
    unfold unmount_device, run_stdout, QMessageBox_information. no_spawn.
  - destruct (start_btn (widgets s)); [|lia].
    rewrite run_slot_threads.
    pose proof (start_dd_spawns_at_most_one w (widgets s)). lia.
  - destruct (nth_error (threads s) k) as [[|a rest]|]; try lia.
    destruct a as [cmd shell|[text|]|status|e];
      cbn; rewrite ?app_nil_r, replace_nth_length; lia.
Qed.

Lemma step_threads_lower (i : Input) (s : Sys) :
  (length (threads s) <= length (threads (step i s)))%nat.
Proof.
  unfold step. destruct (crashed s); [lia|].
  destruct i as [w p|text|b|b|b|w j|w|w|k]; cbn [set_widgets threads];
    try lia.
  - rewrite run_slot_threads. lia.
  - destruct (nth_error (dev_items (widgets s)) j) as [d|]; [|lia].
    destruct (String.eqb d (dev_combo (widgets s))); [lia|].
    rewrite run_slot_threads. cbn [set_widgets threads]. lia.
  - destruct (unmount_btn (widgets s)); [|lia].
    rewrite run_slot_threads. lia.
  - destruct (start_btn (widgets s)); [|lia].
    rewrite run_slot_threads. lia.
  - destruct (nth_error (threads s) k) as [[|a rest]|]; try lia.
    destruct a as [cmd shell|[text|]|status|e];
      cbn; rewrite ?app_nil_r, replace_nth_length; lia.
Qed.

(** X15: [dd] is only ever launched by a click on Start, at most once per
    click.  The number of workers the application has started never
    exceeds the number of clicks on the start button: no other widget, no
    signal of a worker and no step of a thread starts one, and worker
    threads are never removed from the list. *)
Theorem workers_come_from_start_clicks :
  forall (inputs : list Input) (s : Sys),
    (length (threads s) <= length (threads (run_inputs inputs s))
     <= length (threads s) + length (filter is_start inputs))%nat.
Proof.
  induction inputs as [|i inputs IH]; intros s; cbn [run_inputs fold_left];
    [cbn; lia|].
  change (fold_left (fun s i => step i s) inputs (step i s))
    with (run_inputs inputs (step i s)).
  specialize (IH (step i s)). pose proof (step_threads i s) as Hup.
  pose proof (step_threads_lower i s) as Hlow.
  cbn [filter]. destruct (is_start i); cbn [length]; lia.
Qed.

(** ** Choosing the image, unmounting *)

(** X16: the outcomes of [browse_file].  A cancelled file dialog changes
    nothing.  A chosen path is put in the input field and its size in
    [image_size_bytes], and nothing else changes.  When the size cannot be
    read the exception escapes after the input field has already been
    set, so the field names the new file while [image_size_bytes] still
    holds the size of the previous one. *)
Theorem browse_file_outcomes :
  forall (w : World) (g : Gui) (file_path : string),
    exec (browse_file w "") g = (g, [], None)
    /\ (file_path <> "" ->
        match getsize w file_path with
        | inr n =>
            exec (browse_file w file_path) g
            = (set_image_size_bytes n (set_input_edit file_path g), [], None)
        | inl e =>
            exec (browse_file w file_path) g
            = (set_input_edit file_path g, [], Some e)
            /\ image_size_bytes (set_input_edit file_path g)
               = image_size_bytes g
        end).
Proof.
  intros w g file_path. split; [destruct g; reflexivity|].
  intros Hne. destruct file_path as [|c rest]; [contradiction|].
  unfold exec, browse_file, show_file_size, query, bind, ret, raise, modify.
  cbn [Py.truthy gui log].
  destruct (getsize w (String c rest)); [split|]; reflexivity.
Qed.

Lemma browse_file_outcomes_witness :
  exec (browse_file w_ok "/home/u/a.img") init_gui
  = (set_image_size_bytes 1073741824
       (set_input_edit "/home/u/a.img" init_gui), [], None).
Proof.
  refine (proj2 (browse_file_outcomes w_ok init_gui "/home/u/a.img") _).
  discriminate.
Defined.

(** X17: [unmount_device] announces before it checks.  It runs the unmount
    command with the single argument made of the device text followed by
    a star, and as soon as that command has returned it shows the box
    saying the device is unmounted, whatever the command did.  Only then
    does it query the mounts again, and the buttons follow that query:
    when the device is still mounted, Start stays disabled although the
    box has been shown.  When the command cannot be run, the exception
    escapes and there is no box. *)
Theorem unmount_announces_before_checking :
  forall (w : World) (g : Gui),
    Py.strip (dev_combo g) <> "" ->
    (forall e,
        subprocess_run w (umount_command (ofile_of g)) = inl e ->
        exec (unmount_device w) g
        = (g, [SubprocessRun (umount_command (ofile_of g))], Some e))
    /\ (forall answer out,
           subprocess_run w (umount_command (ofile_of g)) = inr answer ->
           subprocess_run w (lsblk_mount_query (ofile_of g)) = inr out ->
           exec (unmount_device w) g
           = (set_buttons (negb (Py.truthy (Py.strip out)))
                          (Py.truthy (Py.strip out)) g,
              [SubprocessRun (umount_command (ofile_of g));
               MsgInformation "Unmount" (ofile_of g ++ " unmounted.");
               SubprocessRun (lsblk_size_query (ofile_of g));
               SubprocessRun (lsblk_mount_query (ofile_of g))],
              None)).
Proof.
  intros w g Hne.
  assert (Ht : Py.truthy (Py.strip (dev_combo g)) = true)
    by (destruct (Py.strip (dev_combo g)); [contradiction|reflexivity]).
  unfold umount_command, lsblk_mount_query, lsblk_size_query. split.
  - intros e He. do 2 unfold_slot. rewrite He. destruct g; reflexivity.
  - intros answer out Hrun Hout. do 3 unfold_slot.
    rewrite Hrun. cbn [gui log app]. rewrite Ht. cbn [negb gui log app].
    destruct (subprocess_run w ["lsblk"; "-b"; "-dn"; "-o"; "SIZE"; _]);
      cbn [gui log app]; rewrite Hout; reflexivity.
Qed.

Lemma unmount_announces_before_checking_witness :
  exec (unmount_device w_mounted) g_ready
  = (set_buttons false true g_ready,
     [SubprocessRun (umount_command "/dev/sdb");
      MsgInformation "Unmount" "/dev/sdb unmounted.";
      SubprocessRun (lsblk_size_query "/dev/sdb");
      SubprocessRun (lsblk_mount_query "/dev/sdb")],
     None).
Proof.
  refine (proj2 (unmount_announces_before_checking w_mounted g_ready _)
            (nl ++ nl) ("/mnt/usb" ++ nl) _ _).
  - discriminate.
  - reflexivity.
  - reflexivity.
Defined.
